(** * WarehouseModel: credentials, client cache, result cache and query orchestration

    A shallow embedding of
    [packages/backend/src/models/WarehouseModel/WarehouseModel.ts].
    Asynchronous code ([async]/[await] with exceptions) is modelled in a
    small state-and-exception monad [M] whose state records the calls made
    to external collaborators (SSH tunnel, S3 result cache, warehouse) as a
    trace, the promises started but not awaited, and the in-memory registry
    [cachedWarehouseClients]. The collaborators themselves are opaque and
    described by an environment record [env]. *)

From stdpp Require Import base gmap strings list.
From Stdlib Require Import ZArith.

Open Scope Z_scope.

Module WarehouseModel.

(** ** Data *)

(** [CreateWarehouseCredentials]: a plain record compared by [deepEqual]. *)
Record credentials := mkCredentials {
  cred_type : string;
  cred_host : string;
  cred_port : Z;
  cred_user : string;
  cred_password : string;
  cred_useSshTunnel : bool;
}.

Global Instance credentials_eq_dec : EqDecision credentials.
Proof. solve_decision. Defined.

(** [deepEqual] on credentials: structural equality. *)
Definition deepEqual (a b : credentials) : bool := bool_decide (a = b).

(** A [WarehouseClient]: an instance identity and the credentials it was
    built from ([client.credentials]). *)
Record warehouse_client := mkClient {
  client_id : nat;
  client_credentials : credentials;
}.

Global Instance warehouse_client_eq_dec : EqDecision warehouse_client.
Proof. solve_decision. Defined.

Definition row := list (string * string).

(** [CacheMetadata]; timestamps are milliseconds since the epoch. *)
Record cache_metadata := mkCacheMetadata {
  cacheHit : bool;
  cacheUpdatedTime : option Z;
}.

(** Errors thrown along the call. *)
Inductive error :=
| NotExistsError
| UnexpectedServerError
| TunnelError
| DatabaseError
| CompileError
| WarehouseClientError
| S3Error
| WarehouseQueryError.

(** Calls to collaborators, in the order they are made. *)
Inductive event :=
| EvTunnelConnect
| EvTunnelDisconnect
| EvCacheMetadataRead (key : string)
| EvCacheResultsRead (key : string)
| EvCacheUpload (key : string)
| EvWarehouseRun (query : string).

Global Instance event_eq_dec : EqDecision event.
Proof. solve_decision. Defined.

Definition is_cache_event (e : event) : bool :=
  match e with
  | EvCacheMetadataRead _ | EvCacheResultsRead _ | EvCacheUpload _ => true
  | _ => false
  end.

Definition is_tunnel_event (e : event) : bool :=
  match e with
  | EvTunnelConnect | EvTunnelDisconnect => true
  | _ => false
  end.

(** A settled promise: fulfilled with a value or rejected with an error. *)
Inductive outcome (A : Type) :=
| Fulfilled (a : A)
| Rejected (e : error).
Arguments Fulfilled {A} a.
Arguments Rejected {A} e.

(** A value of [UserAttributeValueMap] as the code computes it: a string,
    [null], or a member inherited from [Object.prototype] (a function, or
    [Object.prototype] itself for ["__proto__"]), named by its key. *)
Inductive attribute_value :=
| AttrString (s : string)
| AttrNull
| AttrInherited (member : string).

Global Instance attribute_value_eq_dec : EqDecision attribute_value.
Proof. solve_decision. Defined.

(** ** Collaborators *)

(** The external collaborators of the model, fixed for one call. *)
Record env := mkEnv {
  (** [warehouse_credentials] joined with [projects]: the awaited query
      rejects, or answers with the encrypted blob of the first row for a
      project, if any *)
  db_credentials_row : string -> outcome (option string);
  (** [encryptionService.decrypt]; [None] when it throws *)
  decrypt : string -> option string;
  (** [JSON.parse] of decrypted credentials; [None] when it throws *)
  parse_credentials : string -> option credentials;
  (** [new SshTunnel(c).connect()] fails (network) *)
  tunnel_connect_fails : bool;
  (** [warehouseClientFromCredentials(c)] of [@lightdash/warehouses] throws *)
  client_construction_error : credentials -> option error;
  (** [user_attributes] of an organization: (name, attribute_default) *)
  db_org_attributes : string -> outcome (list (string * option string));
  (** member values of (organization, user): (name, value) *)
  db_user_values : string -> string -> outcome (list (string * string));
  (** [compileMetricQuery] then [buildQuery]: (query, hasExampleMetric) *)
  build_query : gmap string attribute_value -> outcome (string * bool);
  (** [crypto.createHash('sha256').update(s).digest('hex')] *)
  sha256_hex : string -> string;
  (** [new Date().getTime()] *)
  now : Z;
  (** [lightdashConfig.resultsCache] *)
  cache_enabled : bool;
  cacheStateTimeSeconds : Z;
  (** [s3CacheClient.getResultsMetadata(key)]: [LastModified], if any *)
  s3_get_results_metadata : string -> outcome (option Z);
  (** [s3CacheClient.getResults(key)] then [Body?.transformToString()] *)
  s3_get_results : string -> outcome (option string);
  (** [JSON.parse(stringResults).rows]; [None] when it throws *)
  parse_rows : string -> option (list row);
  (** [warehouseClient.runQuery(query, queryTags)] *)
  warehouse_run_query : warehouse_client -> string -> outcome (list row);
  (** [s3CacheClient.uploadResults(key, buffer, queryTags)] *)
  s3_upload_results : string -> outcome unit;
}.

(** ** The monad *)

Record world := mkWorld {
  w_trace : list event;
  (** promises started and not awaited, already settled *)
  w_pending : list (outcome unit);
  (** [this.cachedWarehouseClients] *)
  w_clients : gmap string warehouse_client;
  (** identity of the next client constructed *)
  w_next_client : nat;
  (** local port of the next SSH tunnel *)
  w_next_port : Z;
}.

Definition M (A : Type) := world -> world * outcome A.

Definition ret {A} (a : A) : M A := fun w => (w, Fulfilled a).
Definition throw {A} (e : error) : M A := fun w => (w, Rejected e).
Definition bind {A B} (m : M A) (k : A -> M B) : M B :=
  fun w => match m w with
           | (w', Fulfilled a) => k a w'
           | (w', Rejected e) => (w', Rejected e)
           end.

Notation "x <- m ;; k" := (bind m (fun x => k))
  (at level 100, m at next level, right associativity).
Notation "m ;;; k" := (bind m (fun _ => k))
  (at level 100, right associativity).

Definition emit (e : event) : M unit :=
  fun w => (mkWorld (w_trace w ++ [e]) (w_pending w) (w_clients w)
                    (w_next_client w) (w_next_port w), Fulfilled tt).

(** Awaiting a settled promise. *)
Definition await {A} (o : outcome A) : M A :=
  match o with Fulfilled a => ret a | Rejected e => throw e end.

(** [p.catch((e) => undefined)]. *)
Definition catch_undefined {A} (o : outcome (option A)) : outcome (option A) :=
  match o with Fulfilled a => Fulfilled a | Rejected _ => Fulfilled None end.

(** Starting a promise without awaiting it. *)
Definition detach (o : outcome unit) : M unit :=
  fun w => (mkWorld (w_trace w) (w_pending w ++ [o]) (w_clients w)
                    (w_next_client w) (w_next_port w), Fulfilled tt).

(** [p.catch((e) => undefined)] on a promise of no value. *)
Definition catch_ignore (o : outcome unit) : outcome unit :=
  match o with Fulfilled _ => Fulfilled tt | Rejected _ => Fulfilled tt end.

Definition get_clients : M (gmap string warehouse_client) :=
  fun w => (w, Fulfilled (w_clients w)).

Definition set_client (projectUuid : string) (c : warehouse_client) : M unit :=
  fun w => (mkWorld (w_trace w) (w_pending w) (<[projectUuid := c]> (w_clients w))
                    (w_next_client w) (w_next_port w), Fulfilled tt).

(** ** Credential store *)

(** [getWarehouseCredentialsForProject] (lines 62-87). *)
Definition getWarehouseCredentialsForProject (E : env) (projectUuid : string)
  : M credentials :=
  rows <- await (db_credentials_row E projectUuid) ;;
  match rows with
  | None => throw NotExistsError
  | Some encrypted_credentials =>
      match decrypt E encrypted_credentials with
      | None => throw UnexpectedServerError
      | Some plain =>
          match parse_credentials E plain with
          | None => throw UnexpectedServerError
          | Some c => ret c
          end
      end
  end.

(** ** User attributes *)

(** The properties of [Object.prototype], inherited by every object
    literal. *)
Definition object_prototype_members : list string :=
  ["constructor"; "__defineGetter__"; "__defineSetter__"; "hasOwnProperty";
   "__lookupGetter__"; "__lookupSetter__"; "isPrototypeOf";
   "propertyIsEnumerable"; "toString"; "valueOf"; "__proto__"; "toLocaleString"].

(** The result of reading [obj[key]] on an object literal whose own
    properties are strings. *)
Inductive js_lookup :=
| OwnString (s : string)
| InheritedMember (member : string)
| Undefined.

(** [obj[key]]: an own property, else a member of [Object.prototype], else
    [undefined]. *)
Definition plain_object_get (obj : gmap string string) (key : string) : js_lookup :=
  match obj !! key with
  | Some s => OwnString s
  | None => if bool_decide (key ∈ object_prototype_members)
            then InheritedMember key else Undefined
  end.

(** [row.attribute_default], a string or [null]. *)
Definition default_value (d : option string) : attribute_value :=
  match d with Some s => AttrString s | None => AttrNull end.

(** JavaScript [u || d]: the empty string and [undefined] are falsy, an
    inherited member (a function or an object) is truthy. *)
Definition js_or (u : js_lookup) (d : option string) : attribute_value :=
  match u with
  | OwnString s => if bool_decide (s = "") then default_value d else AttrString s
  | InheritedMember k => AttrInherited k
  | Undefined => default_value d
  end.

(** [userValues.reduce((acc, row) => ({ ...acc, [row.name]: row.value }), {})] *)
Definition user_values_map (userValues : list (string * string))
  : gmap string string :=
  foldl (fun acc r => <[r.1 := r.2]> acc) ∅ userValues.

(** [attributeValues.reduce((acc, row) => ({ ...acc,
      [row.name]: userValuesMap[row.name] || row.attribute_default }), {})] *)
Definition combine_attribute_values (attributeValues : list (string * option string))
  (userValuesMap : gmap string string) : gmap string attribute_value :=
  foldl (fun acc r => <[r.1 := js_or (plain_object_get userValuesMap r.1) r.2]> acc) ∅
    attributeValues.

(** [getAttributeValuesForOrgMember] (lines 89-153). *)
Definition getAttributeValuesForOrgMember (E : env)
  (organizationUuid userUuid : string) : M (gmap string attribute_value) :=
  attributeValues <- await (db_org_attributes E organizationUuid) ;;
  userValues <- await (db_user_values E organizationUuid userUuid) ;;
  ret (combine_attribute_values attributeValues (user_values_map userValues)).

(** ** SSH tunnel *)

(** Modelled from the spec: [SshTunnel.connect] of [@lightdash/warehouses]
    (not in src). Without SSH parameters it returns the credentials
    unchanged; with them it opens a tunnel on a local endpoint that changes
    per session (here: the next free local port) and returns the
    credentials rewritten to point at that endpoint. *)
Definition sshTunnelConnect (E : env) (c : credentials) : M credentials :=
  fun w =>
    if tunnel_connect_fails E then (w, Rejected TunnelError)
    else if cred_useSshTunnel c then
      let port := w_next_port w in
      (mkWorld (w_trace w ++ [EvTunnelConnect]) (w_pending w) (w_clients w)
               (w_next_client w) (port + 1),
       Fulfilled (mkCredentials (cred_type c) "127.0.0.1" port (cred_user c)
                    (cred_password c) (cred_useSshTunnel c)))
    else
      (mkWorld (w_trace w ++ [EvTunnelConnect]) (w_pending w) (w_clients w)
               (w_next_client w) (w_next_port w),
       Fulfilled c).

(** Modelled from the spec: [SshTunnel.disconnect] (not in src); the
    invocation is recorded. *)
Definition sshTunnelDisconnect : M unit := emit EvTunnelDisconnect.

(** ** Client cache *)

(** [getWarehouseClientFromCredentials]: constructs a new client instance,
    or throws the error of [warehouseClientFromCredentials]. *)
Definition getWarehouseClientFromCredentials (E : env) (c : credentials)
  : M warehouse_client :=
  fun w => match client_construction_error E c with
           | Some e => (w, Rejected e)
           | None => (mkWorld (w_trace w) (w_pending w) (w_clients w)
                    (S (w_next_client w)) (w_next_port w),
            Fulfilled (mkClient (w_next_client w) c))
           end.

(** Lines 173-189 of [getWarehouseClient]: reuse or construct and cache. *)
Definition cachedOrNewClient (E : env) (projectUuid : string)
  (warehouseSshCredentials : credentials) : M warehouse_client :=
  clients <- get_clients ;;
  let reuse :=
    match clients !! projectUuid with
    | Some existingClient =>
        if deepEqual (client_credentials existingClient) warehouseSshCredentials
        then Some existingClient else None
    | None => None
    end in
  match reuse with
  | Some existingClient => ret existingClient
  | None =>
      client <- getWarehouseClientFromCredentials E warehouseSshCredentials ;;
      set_client projectUuid client ;;;
      ret client
  end.

(** [getWarehouseClient] (lines 161-190): the client and the tunnel (the
    tunnel is represented by the credentials it was opened with). *)
Definition getWarehouseClient (E : env) (projectUuid : string)
  : M (warehouse_client * credentials) :=
  credentials <- getWarehouseCredentialsForProject E projectUuid ;;
  warehouseSshCredentials <- sshTunnelConnect E credentials ;;
  client <- cachedOrNewClient E projectUuid warehouseSshCredentials ;;
  ret (client, credentials).

(** ** Result cache *)

(** [crypto.createHash('sha256').update(`${projectUuid}.${query}`).digest('hex')] *)
Definition queryHash (E : env) (projectUuid query : string) : string :=
  sha256_hex E (projectUuid +:+ "." +:+ query).

(** [new Date().getTime() - LastModified.getTime()
       < cacheStateTimeSeconds * 1000] *)
Definition is_fresh (E : env) (lastModified : Z) : bool :=
  now E - lastModified <? cacheStateTimeSeconds E * 1000.

(** Lines 221-257 of [getResultsFromCacheOrWarehouse]: the cache lookup;
    [Some] is the early [return] of cached rows. *)
Definition lookupCache (E : env) (queryHash : string)
  : M (option (list row * cache_metadata)) :=
  if cache_enabled E then
    emit (EvCacheMetadataRead queryHash) ;;;
    cacheEntryMetadata <-
      await (catch_undefined (s3_get_results_metadata E queryHash)) ;;
    match cacheEntryMetadata with
    | Some lastModified =>
        if is_fresh E lastModified then
          emit (EvCacheResultsRead queryHash) ;;;
          stringResults <- await (s3_get_results E queryHash) ;;
          match stringResults with
          | Some str =>
              if bool_decide (str = "") then ret None
              else match parse_rows E str with
                   | Some rows =>
                       ret (Some (rows, mkCacheMetadata true (Some lastModified)))
                   | None => ret None
                   end
          | None => ret None
          end
        else ret None
    | None => ret None
    end
  else ret None.

(** Lines 271-280: the fire-and-forget upload. *)
Definition storeCache (E : env) (queryHash : string) : M unit :=
  if cache_enabled E then
    emit (EvCacheUpload queryHash) ;;;
    detach (catch_ignore (s3_upload_results E queryHash))
  else ret tt.

(** [getResultsFromCacheOrWarehouse] (lines 192-288). *)
Definition getResultsFromCacheOrWarehouse (E : env) (projectUuid : string)
  (warehouseClient : warehouse_client) (query : string)
  : M (list row * cache_metadata) :=
  let key := queryHash E projectUuid query in
  cached <- lookupCache E key ;;
  match cached with
  | Some r => ret r
  | None =>
      emit (EvWarehouseRun query) ;;;
      warehouseResults <- await (warehouse_run_query E warehouseClient query) ;;
      storeCache E key ;;;
      ret (warehouseResults, mkCacheMetadata false None)
  end.

(** ** Query orchestration *)

(** [runQuery] (lines 290-305). *)
Definition runQuery (E : env) (projectUuid query : string) : M (list row) :=
  ct <- getWarehouseClient E projectUuid ;;
  emit (EvWarehouseRun query) ;;;
  results <- await (warehouse_run_query E ct.1 query) ;;
  sshTunnelDisconnect ;;;
  ret results.

(** [compileMetricQuery] (lines 307-340): the query built for the member's
    attributes, [buildQuery]'s [{ query, hasExampleMetric }]. *)
Definition compileMetricQuery (E : env)
  (organizationUuid projectUuid userUuid : string) : M (string * bool) :=
  ct <- getWarehouseClient E projectUuid ;;
  userAttributes <- getAttributeValuesForOrgMember E organizationUuid userUuid ;;
  await (build_query E userAttributes).

Record metric_query_result := mkMetricQueryResult {
  res_rows : list row;
  res_cacheMetadata : cache_metadata;
  res_query : string;
  res_hasExampleMetric : bool;
  res_warehouseType : string;
}.

(** [runMetricQuery] (lines 342-394). *)
Definition runMetricQuery (E : env)
  (organizationUuid projectUuid userUuid : string) : M metric_query_result :=
  ct <- getWarehouseClient E projectUuid ;;
  userAttributes <- getAttributeValuesForOrgMember E organizationUuid userUuid ;;
  qb <- await (build_query E userAttributes) ;;
  rc <- getResultsFromCacheOrWarehouse E projectUuid ct.1 qb.1 ;;
  sshTunnelDisconnect ;;;
  ret (mkMetricQueryResult rc.1 rc.2 qb.1 qb.2
         (cred_type (client_credentials ct.1))).

(** The empty world: empty registry, nothing started. *)
Definition init_world : world := mkWorld [] [] ∅ 0 40000.

Definition count_event (e : event) (tr : list event) : nat :=
  length (filter (fun x => x = e) tr).

(** ** Properties of computations *)

(** [m] relates every start world to its end world by [P]. *)
Definition preserves (P : world -> world -> Prop) {A} (m : M A) : Prop :=
  forall w, P w (fst (m w)).

(** The registry, the client counter and the port counter are untouched. *)
Definition registry_frame (w w' : world) : Prop :=
  w_clients w' = w_clients w /\ w_next_client w' = w_next_client w /\
  w_next_port w' = w_next_port w.

(** Every cached client was constructed before (its identity is below the
    counter), and every cached client built from tunnel-rewritten
    credentials points at a port of an earlier session. *)
Definition registry_inv (w : world) : Prop :=
  forall projectUuid c, w_clients w !! projectUuid = Some c ->
    (client_id c < w_next_client w)%nat /\
    (cred_useSshTunnel (client_credentials c) = true ->
     cred_port (client_credentials c) < w_next_port w).

Definition registry_inv_step (w w' : world) : Prop :=
  registry_inv w -> registry_inv w'.

(** Only events other than cache reads and writes are added, and no
    promise is left running. *)
Definition cache_free_step (w w' : world) : Prop :=
  exists tr, w_trace w' = w_trace w ++ tr /\
    Forall (fun e => is_cache_event e = false) tr /\ w_pending w' = w_pending w.

(** Every promise left running never rejects. *)
Definition pending_caught_step (w w' : world) : Prop :=
  exists l, w_pending w' = w_pending w ++ l /\ Forall (fun o => o = Fulfilled tt) l.

(** Only events satisfying [ok] are added to the trace. *)
Definition trace_step (ok : event -> Prop) (w w' : world) : Prop :=
  exists tr, w_trace w' = w_trace w ++ tr /\ Forall ok tr.

(** Worlds reachable by a sequence of [runQuery], [runMetricQuery] and
    [compileMetricQuery] calls from a world with an empty registry. *)
Inductive reachable : world -> Prop :=
| reachable_init w : w_clients w = ∅ -> reachable w
| reachable_runQuery E projectUuid query w :
    reachable w -> reachable (fst (runQuery E projectUuid query w))
| reachable_runMetricQuery E organizationUuid projectUuid userUuid w :
    reachable w ->
    reachable (fst (runMetricQuery E organizationUuid projectUuid userUuid w))
| reachable_compileMetricQuery E organizationUuid projectUuid userUuid w :
    reachable w ->
    reachable (fst (compileMetricQuery E organizationUuid projectUuid userUuid w)).

(** The same collaborators with another outcome for [uploadResults]. *)
Definition with_upload (E : env) (upload : string -> outcome unit) : env :=
  mkEnv (db_credentials_row E) (decrypt E) (parse_credentials E)
        (tunnel_connect_fails E) (client_construction_error E) (db_org_attributes E) (db_user_values E)
        (build_query E) (sha256_hex E) (now E) (cache_enabled E)
        (cacheStateTimeSeconds E) (s3_get_results_metadata E)
        (s3_get_results E) (parse_rows E) (warehouse_run_query E) upload.

(** ** Sample collaborators *)

Definition sample_ssh_credentials : credentials :=
  mkCredentials "postgres" "db.internal" 5432 "analyst" "secret" true.

Definition sample_rows : list row := [[("orders_count", "42")]].

(** Project [p1] has SSH credentials stored as the blob ["blob-p1"]; the
    cache is enabled with a one-hour threshold and [now] is [10000000]. *)
Definition sample_env (enabled : bool)
  (metadata : outcome (option Z)) (results : outcome (option string))
  (warehouse : outcome (list row)) (upload : outcome unit)
  (user_values : list (string * string)) : env :=
  mkEnv (fun p => Fulfilled (if bool_decide (p = "p1") then Some "blob-p1" else None))
        (fun b => if bool_decide (b = "blob-p1") then Some "plain-p1" else None)
        (fun s => if bool_decide (s = "plain-p1") then Some sample_ssh_credentials
                  else None)
        false (fun _ => None)
        (fun _ => Fulfilled [("region", Some "eu")])
        (fun _ _ => Fulfilled user_values)
        (fun _ => Fulfilled ("SELECT 1", false))
        (fun s => s)
        10000000 enabled 3600
        (fun _ => metadata) (fun _ => results)
        (fun s => if bool_decide (s = "cached") then Some sample_rows else None)
        (fun _ _ => warehouse) (fun _ => upload).

(** The world after events [evs] and detached promises [pend]. *)
Definition w_after (w : world) (evs : list event) (pend : list (outcome unit)) : world :=
  mkWorld (w_trace w ++ evs) (w_pending w ++ pend) (w_clients w)
          (w_next_client w) (w_next_port w).

(** Collaborators of the samples: caching enabled, nothing cached, the
    warehouse answers [sample_rows]. *)
Definition sample_env_ok : env :=
  sample_env true (Fulfilled None) (Fulfilled None) (Fulfilled sample_rows)
    (Fulfilled tt) [].

(** Concatenation of keys with a constant stand-in for the digest. *)
Definition constant_digest_env : env :=
  mkEnv (db_credentials_row sample_env_ok) (decrypt sample_env_ok)
        (parse_credentials sample_env_ok) false (client_construction_error sample_env_ok)
        (db_org_attributes sample_env_ok)
        (db_user_values sample_env_ok) (build_query sample_env_ok)
        (fun _ => "0") (now sample_env_ok) true 3600
        (s3_get_results_metadata sample_env_ok) (s3_get_results sample_env_ok)
        (parse_rows sample_env_ok) (warehouse_run_query sample_env_ok)
        (s3_upload_results sample_env_ok).

(** The sample collaborators with a credential query that rejects. *)
Definition db_down_env : env :=
  mkEnv (fun _ => Rejected DatabaseError) (decrypt sample_env_ok)
        (parse_credentials sample_env_ok) false (client_construction_error sample_env_ok)
        (db_org_attributes sample_env_ok)
        (db_user_values sample_env_ok) (build_query sample_env_ok)
        (sha256_hex sample_env_ok) (now sample_env_ok) true 3600
        (s3_get_results_metadata sample_env_ok) (s3_get_results sample_env_ok)
        (parse_rows sample_env_ok) (warehouse_run_query sample_env_ok)
        (s3_upload_results sample_env_ok).

(** The sample collaborators with a client factory that throws. *)
Definition factory_down_env : env :=
  mkEnv (db_credentials_row sample_env_ok) (decrypt sample_env_ok)
        (parse_credentials sample_env_ok) false (fun _ => Some WarehouseClientError)
        (db_org_attributes sample_env_ok)
        (db_user_values sample_env_ok) (build_query sample_env_ok)
        (sha256_hex sample_env_ok) (now sample_env_ok) true 3600
        (s3_get_results_metadata sample_env_ok) (s3_get_results sample_env_ok)
        (parse_rows sample_env_ok) (warehouse_run_query sample_env_ok)
        (s3_upload_results sample_env_ok).

(** Project [p1] with credentials that use no SSH tunnel. *)
Definition sample_plain_credentials : credentials :=
  mkCredentials "postgres" "db.internal" 5432 "analyst" "secret" false.

Definition sample_env_plain : env :=
  mkEnv (db_credentials_row sample_env_ok) (decrypt sample_env_ok)
        (fun s => if bool_decide (s = "plain-p1") then Some sample_plain_credentials
                  else None)
        false (client_construction_error sample_env_ok)
        (db_org_attributes sample_env_ok)
        (db_user_values sample_env_ok) (build_query sample_env_ok)
        (sha256_hex sample_env_ok) (now sample_env_ok) true 3600
        (s3_get_results_metadata sample_env_ok) (s3_get_results sample_env_ok)
        (parse_rows sample_env_ok) (warehouse_run_query sample_env_ok)
        (s3_upload_results sample_env_ok).

End WarehouseModel.

Module WarehouseModelFacts.
Import WarehouseModel.

(** ** Evaluations on samples *)

Example sample_cache_miss_then_write :
  snd (runMetricQuery (sample_env true (Fulfilled None) (Fulfilled None)
         (Fulfilled sample_rows) (Rejected S3Error) []) "o1" "p1" "u1" init_world)
  = Fulfilled (mkMetricQueryResult sample_rows (mkCacheMetadata false None)
                 "SELECT 1" false "postgres").
Proof. vm_compute. reflexivity. Qed.

Example sample_cache_hit :
  snd (runMetricQuery (sample_env true (Fulfilled (Some 9000000))
         (Fulfilled (Some "cached")) (Rejected WarehouseQueryError)
         (Fulfilled tt) []) "o1" "p1" "u1" init_world)
  = Fulfilled (mkMetricQueryResult sample_rows (mkCacheMetadata true (Some 9000000))
                 "SELECT 1" false "postgres").
Proof. vm_compute. reflexivity. Qed.

Example sample_trace :
  w_trace (fst (runMetricQuery (sample_env true (Fulfilled None) (Fulfilled None)
         (Fulfilled sample_rows) (Fulfilled tt) []) "o1" "p1" "u1" init_world))
  = [EvTunnelConnect; EvCacheMetadataRead "p1.SELECT 1"; EvWarehouseRun "SELECT 1";
     EvCacheUpload "p1.SELECT 1"; EvTunnelDisconnect].
Proof. vm_compute. reflexivity. Qed.

(** ** Laws of [preserves] *)

Section PreservesLaws.
Variable P : world -> world -> Prop.
Context `{!Reflexive P, !Transitive P}.

Lemma preserves_ret {A} (a : A) : preserves P (ret a).
Proof. intros w. simpl. reflexivity. Qed.

Lemma preserves_throw {A} (e : error) : preserves P (@throw A e).
Proof. intros w. simpl. reflexivity. Qed.

Lemma preserves_await {A} (o : outcome A) : preserves P (await o).
Proof. destruct o; [apply preserves_ret | apply preserves_throw]. Qed.

Lemma preserves_bind {A B} (m : M A) (k : A -> M B) :
  preserves P m -> (forall a, preserves P (k a)) -> preserves P (bind m k).
Proof.
  intros Hm Hk w. unfold bind. specialize (Hm w).
  destruct (m w) as [w' [a|e]]; simpl in *; [|exact Hm].
  etransitivity; [exact Hm | apply Hk].
Qed.

End PreservesLaws.

Ltac order_instance :=
  match goal with
  | |- Reflexive _ => typeclasses eauto
  | |- Transitive _ => typeclasses eauto
  end.

Ltac preserves_by base :=
  repeat first
    [ apply preserves_bind; try order_instance; [ | intros ? ]
    | apply preserves_ret; order_instance
    | apply preserves_throw; order_instance
    | apply preserves_await; order_instance
    | progress base
    | match goal with
      | |- preserves _ (match ?x with _ => _ end) => destruct x
      | |- preserves _ (if ?b then _ else _) => destruct b
      end ].

Global Instance registry_frame_refl : Reflexive registry_frame.
Proof. intros w. repeat split. Qed.
Global Instance registry_frame_trans : Transitive registry_frame.
Proof. intros w1 w2 w3 (?&?&?) (?&?&?). repeat split; congruence. Qed.
Global Instance registry_inv_step_refl : Reflexive registry_inv_step.
Proof. intros w H. exact H. Qed.
Global Instance registry_inv_step_trans : Transitive registry_inv_step.
Proof. intros w1 w2 w3 H12 H23 H. auto. Qed.
Global Instance cache_free_step_refl : Reflexive cache_free_step.
Proof. intros w. exists []. rewrite app_nil_r. auto. Qed.
Global Instance cache_free_step_trans : Transitive cache_free_step.
Proof.
  intros w1 w2 w3 (t1&H1&F1&P1) (t2&H2&F2&P2). exists (t1 ++ t2).
  rewrite H2, H1, app_assoc. split; [done|]. split; [by apply Forall_app|congruence].
Qed.
Global Instance pending_caught_step_refl : Reflexive pending_caught_step.
Proof. intros w. exists []. rewrite app_nil_r. auto. Qed.
Global Instance pending_caught_step_trans : Transitive pending_caught_step.
Proof.
  intros w1 w2 w3 (l1&H1&F1) (l2&H2&F2). exists (l1 ++ l2).
  rewrite H2, H1, app_assoc. split; [done|by apply Forall_app].
Qed.

(** ** Registry frame *)

Lemma emit_frame e : preserves registry_frame (emit e).
Proof. intros w. repeat split. Qed.
Lemma detach_frame o : preserves registry_frame (detach o).
Proof. intros w. repeat split. Qed.

Ltac frame_base :=
  first [ apply emit_frame | apply detach_frame
        | progress unfold sshTunnelDisconnect, lookupCache, storeCache ].

Lemma getWarehouseCredentialsForProject_frame E p :
  preserves registry_frame (getWarehouseCredentialsForProject E p).
Proof. unfold getWarehouseCredentialsForProject. preserves_by frame_base. Qed.

Lemma getAttributeValuesForOrgMember_frame E o u :
  preserves registry_frame (getAttributeValuesForOrgMember E o u).
Proof. unfold getAttributeValuesForOrgMember. preserves_by frame_base. Qed.

Lemma getResultsFromCacheOrWarehouse_frame E p c q :
  preserves registry_frame (getResultsFromCacheOrWarehouse E p c q).
Proof. unfold getResultsFromCacheOrWarehouse. cbv zeta. preserves_by frame_base. Qed.

Lemma frame_inv {A} (m : M A) :
  preserves registry_frame m -> preserves registry_inv_step m.
Proof.
  intros H w Hinv. destruct (H w) as (Hc&Hn&Hp).
  intros p c Hl. rewrite Hc in Hl. rewrite Hn, Hp. by apply Hinv with p.
Qed.

(** ** Registry invariant *)

(** The client constructed by [cachedOrNewClient] on a miss (or the error
    of its construction), and the world after it is stored. *)
Lemma cachedOrNewClient_eq E p eff w :
  cachedOrNewClient E p eff w =
  let fresh :=
    match client_construction_error E eff with
    | Some e => (w, Rejected e)
    | None => (mkWorld (w_trace w) (w_pending w)
                 (<[p := mkClient (w_next_client w) eff]> (w_clients w))
                 (S (w_next_client w)) (w_next_port w),
               Fulfilled (mkClient (w_next_client w) eff))
    end in
  match w_clients w !! p with
  | Some c => if deepEqual (client_credentials c) eff then (w, Fulfilled c) else fresh
  | None => fresh
  end.
Proof.
  unfold cachedOrNewClient, get_clients, getWarehouseClientFromCredentials,
    set_client, ret, bind.
  simpl. destruct (w_clients w !! p) as [c|].
  - destruct (deepEqual (client_credentials c) eff); [reflexivity|].
    destruct (client_construction_error E eff); reflexivity.
  - destruct (client_construction_error E eff); reflexivity.
Qed.

Lemma cachedOrNewClient_inv E p eff w :
  registry_inv w ->
  (cred_useSshTunnel eff = true -> cred_port eff < w_next_port w) ->
  registry_inv (fst (cachedOrNewClient E p eff w)).
Proof.
  intros Hinv Heff. rewrite cachedOrNewClient_eq. cbv zeta.
  destruct (client_construction_error E eff) as [e|].
  { destruct (w_clients w !! p) as [c|]; [|exact Hinv].
    destruct (deepEqual (client_credentials c) eff); exact Hinv. }
  assert (Hnew : registry_inv (mkWorld (w_trace w) (w_pending w)
                   (<[p := mkClient (w_next_client w) eff]> (w_clients w))
                   (S (w_next_client w)) (w_next_port w))).
  { intros p' c' Hl. simpl in *.
    destruct (decide (p = p')) as [->|Hne].
    - rewrite lookup_insert_eq in Hl. simplify_eq/=. split; [lia|exact Heff].
    - rewrite lookup_insert_ne in Hl by done.
      destruct (Hinv p' c' Hl) as [Hid Hport]. split; [lia|exact Hport]. }
  destruct (w_clients w !! p) as [c|]; [|exact Hnew].
  destruct (deepEqual (client_credentials c) eff); [exact Hinv|exact Hnew].
Qed.

Lemma sshTunnelConnect_inv E c w w' eff :
  sshTunnelConnect E c w = (w', Fulfilled eff) ->
  registry_inv w ->
  registry_inv w' /\ (cred_useSshTunnel eff = true -> cred_port eff < w_next_port w').
Proof.
  unfold sshTunnelConnect. intros Hc Hinv.
  destruct (tunnel_connect_fails E); [discriminate|].
  destruct (cred_useSshTunnel c) eqn:Hssh; simplify_eq/=.
  - split; [|intros _; lia].
    intros p c' Hl. destruct (Hinv p c' Hl) as [Hid Hport]. simpl.
    split; [exact Hid|intros H; specialize (Hport H); lia].
  - split; [exact Hinv|congruence].
Qed.

Lemma getWarehouseCredentialsForProject_world E p w :
  fst (getWarehouseCredentialsForProject E p w) = w.
Proof.
  unfold getWarehouseCredentialsForProject, bind, await, ret, throw.
  repeat case_match; simplify_eq/=; reflexivity.
Qed.

Lemma getWarehouseClient_inv E p :
  preserves registry_inv_step (getWarehouseClient E p).
Proof.
  intros w Hinv. unfold getWarehouseClient, bind at 1.
  pose proof (getWarehouseCredentialsForProject_world E p w) as Hw.
  destruct (getWarehouseCredentialsForProject E p w) as [w1 [c|e]];
    simpl in Hw; subst w1; [|exact Hinv].
  unfold bind at 1.
  destruct (sshTunnelConnect E c w) as [w2 [eff|e]] eqn:Ht; [|simpl].
  - destruct (sshTunnelConnect_inv E c w w2 eff Ht Hinv) as [Hinv2 Heff].
    unfold bind at 1.
    pose proof (cachedOrNewClient_inv E p eff w2 Hinv2 Heff) as Hinv3.
    destruct (cachedOrNewClient E p eff w2) as [w3 [cl|e]]; exact Hinv3.
  - unfold sshTunnelConnect in Ht.
    repeat case_match; simplify_eq/=; exact Hinv.
Qed.

Ltac frame_base_ext :=
  first [ frame_base
        | apply getAttributeValuesForOrgMember_frame
        | apply getResultsFromCacheOrWarehouse_frame ].

Lemma runQuery_inv E p q : preserves registry_inv_step (runQuery E p q).
Proof.
  unfold runQuery. apply preserves_bind; try order_instance.
  - apply getWarehouseClient_inv.
  - intros ct. apply frame_inv. preserves_by frame_base_ext.
Qed.

Lemma runMetricQuery_inv E o p u :
  preserves registry_inv_step (runMetricQuery E o p u).
Proof.
  unfold runMetricQuery. apply preserves_bind; try order_instance.
  - apply getWarehouseClient_inv.
  - intros ct. apply frame_inv. preserves_by frame_base_ext.
Qed.

Lemma compileMetricQuery_inv E o p u :
  preserves registry_inv_step (compileMetricQuery E o p u).
Proof.
  unfold compileMetricQuery. apply preserves_bind; try order_instance.
  - apply getWarehouseClient_inv.
  - intros ct. apply frame_inv. preserves_by frame_base_ext.
Qed.

Lemma reachable_inv w : reachable w -> registry_inv w.
Proof.
  induction 1 as [w Hempty| E p q w _ IH | E o p u w _ IH | E o p u w _ IH].
  - intros p c Hl. rewrite Hempty, lookup_empty in Hl. discriminate.
  - exact (runQuery_inv E p q w IH).
  - exact (runMetricQuery_inv E o p u w IH).
  - exact (compileMetricQuery_inv E o p u w IH).
Qed.

(** ** C3: client registry *)

Lemma cachedOrNewClient_spec E w p eff :
  registry_inv w ->
  let '(w', r) := cachedOrNewClient E p eff w in
  (forall c, w_clients w !! p = Some c ->
     (r = Fulfilled c <-> client_credentials c = eff)) /\
  ((exists c, w_clients w !! p = Some c /\ client_credentials c = eff) ->
     w' = w) /\
  (~ (exists c, w_clients w !! p = Some c /\ client_credentials c = eff) ->
     match client_construction_error E eff with
     | None =>
         r = Fulfilled (mkClient (w_next_client w) eff) /\
         w_clients w' = <[p := mkClient (w_next_client w) eff]> (w_clients w) /\
         (forall p' c', w_clients w !! p' = Some c' ->
            c' <> mkClient (w_next_client w) eff)
     | Some e => r = Rejected e /\ w' = w
     end).
Proof.
  intros Hinv. rewrite cachedOrNewClient_eq. cbv zeta.
  assert (Hfresh : forall p' c', w_clients w !! p' = Some c' ->
                     c' <> mkClient (w_next_client w) eff).
  { intros p' c' Hl ->. destruct (Hinv p' _ Hl) as [Hid _]. simpl in Hid. lia. }
  destruct (w_clients w !! p) as [c0|] eqn:Hl; unfold deepEqual.
  - case_bool_decide as Heq.
    + split; [|split].
      * intros c Hc. simplify_eq. split; [done|reflexivity].
      * done.
      * intros Hn. exfalso. apply Hn. eauto.
    + destruct (client_construction_error E eff) as [e|]; cbn.
      * split; [|split].
        -- intros c Hc. simplify_eq. split; [discriminate|intros H; contradiction].
        -- intros (c&Hc&Heq'). simplify_eq.
        -- intros _. done.
      * split; [|split].
        -- intros c Hc. simplify_eq. split; [|intros H; contradiction].
           intros Hr. simplify_eq/=.
        -- intros (c&Hc&Heq'). simplify_eq.
        -- intros _. split; [done|]. split; [done|exact Hfresh].
  - destruct (client_construction_error E eff) as [e|]; cbn.
    + split; [intros c Hc; discriminate|].
      split; [intros (c&Hc&_); discriminate|]. intros _. done.
    + split; [intros c Hc; discriminate|].
      split; [intros (c&Hc&_); discriminate|].
      intros _. split; [done|]. split; [done|exact Hfresh].
Qed.

(** C3: client resolution returns the cached client of a project exactly
    when its stored credentials are deep-equal to the effective (tunnel
    rewritten) credentials; otherwise it constructs a new client and stores
    it under the project, replacing any prior entry, or, when the
    construction throws, fails with that error and leaves the registry as
    it was; in any world reached by [runQuery], [runMetricQuery] and
    [compileMetricQuery] calls, a successful resolution for credentials that
    use an SSH tunnel returns a newly constructed client, never one from the
    registry, and stores it under the project. *)
Theorem getWarehouseClient_registry (w : world) (Hreach : reachable w) :
  (forall E p eff,
     let '(w', r) := cachedOrNewClient E p eff w in
     (forall c, w_clients w !! p = Some c ->
        (r = Fulfilled c <-> client_credentials c = eff)) /\
     ((exists c, w_clients w !! p = Some c /\ client_credentials c = eff) ->
        w' = w) /\
     (~ (exists c, w_clients w !! p = Some c /\ client_credentials c = eff) ->
        match client_construction_error E eff with
        | None =>
            r = Fulfilled (mkClient (w_next_client w) eff) /\
            w_clients w' = <[p := mkClient (w_next_client w) eff]> (w_clients w) /\
            (forall p' c', w_clients w !! p' = Some c' ->
               c' <> mkClient (w_next_client w) eff)
        | Some e => r = Rejected e /\ w' = w
        end)) /\
  (forall E p c w' cl c',
     snd (getWarehouseCredentialsForProject E p w) = Fulfilled c ->
     cred_useSshTunnel c = true ->
     getWarehouseClient E p w = (w', Fulfilled (cl, c')) ->
     w_clients w' !! p = Some cl /\
     (forall p' c'', w_clients w !! p' = Some c'' -> c'' <> cl)).
Proof.
  pose proof (reachable_inv w Hreach) as Hinv. split.
  - intros E p eff. by apply cachedOrNewClient_spec.
  - intros E p c w' cl c' Hc Hssh.
    pose proof (getWarehouseCredentialsForProject_world E p w) as Hw.
    unfold getWarehouseClient, bind at 1.
    destruct (getWarehouseCredentialsForProject E p w) as [w1 r1];
      simpl in Hw, Hc; subst w1 r1.
    unfold bind at 1. unfold sshTunnelConnect at 1.
    destruct (tunnel_connect_fails E); [discriminate|]. rewrite Hssh.
    simpl.
    set (eff := mkCredentials (cred_type c) "127.0.0.1" (w_next_port w)
                  (cred_user c) (cred_password c) true).
    set (w2 := mkWorld (w_trace w ++ [EvTunnelConnect]) (w_pending w) (w_clients w)
                 (w_next_client w) (w_next_port w + 1)).
    assert (Hinv2 : registry_inv w2).
    { intros p' c'' Hl. destruct (Hinv p' c'' Hl) as [Hid Hport]. simpl.
      split; [exact Hid|intros H; specialize (Hport H); lia]. }
    pose proof (cachedOrNewClient_spec E w2 p eff Hinv2) as Hspec.
    assert (Hmiss : ~ (exists c0, w_clients w2 !! p = Some c0 /\
                                  client_credentials c0 = eff)).
    { intros (c0&Hl&Heq). destruct (Hinv p c0 Hl) as [_ Hport].
      rewrite Heq in Hport. simpl in Hport. specialize (Hport eq_refl). lia. }
    unfold bind. destruct (cachedOrNewClient E p eff w2) as [w3 r3].
    destruct Hspec as (_&_&Hnew). specialize (Hnew Hmiss).
    destruct (client_construction_error E eff) as [e|].
    + destruct Hnew as [-> _]. discriminate.
    + destruct Hnew as (->&Hcl&Hfresh). unfold ret. intros H.
      injection H as <- <- _. split.
      * rewrite Hcl. apply lookup_insert_eq.
      * exact Hfresh.
Qed.

(** Witness of C3: after a first [runMetricQuery] over an SSH tunnel, a
    second resolution for the same project with the same stored credentials
    gets a newly constructed client. *)
Lemma getWarehouseClient_registry_witness :
  let w1 := fst (runMetricQuery sample_env_ok "o1" "p1" "u1" init_world) in
  let cl := mkClient 1 (mkCredentials "postgres" "127.0.0.1" 40001 "analyst"
                          "secret" true) in
  reachable w1 /\
  w_clients (fst (getWarehouseClient sample_env_ok "p1" w1)) !! "p1" = Some cl /\
  (forall p' c'', w_clients w1 !! p' = Some c'' -> c'' <> cl).
Proof.
  intros w1 cl.
  assert (Hr : reachable w1).
  { apply reachable_runMetricQuery. apply reachable_init. reflexivity. }
  split; [exact Hr|].
  apply (proj2 (getWarehouseClient_registry w1 Hr) sample_env_ok "p1"
           sample_ssh_credentials (fst (getWarehouseClient sample_env_ok "p1" w1))
           cl sample_ssh_credentials); vm_compute; reflexivity.
Defined.

(** ** C6: credential resolution *)

(** C6 as stated fails: when the credential query itself rejects, the
    call fails with that error, which is neither [NotExistsError] nor
    [UnexpectedServerError], and returns no credentials. *)
Lemma credentials_query_failure_counterexample :
  db_credentials_row db_down_env "p1" = Rejected DatabaseError /\
  snd (getWarehouseCredentialsForProject db_down_env "p1" init_world) =
    Rejected DatabaseError /\
  snd (getWarehouseCredentialsForProject db_down_env "p1" init_world) <>
    Rejected NotExistsError /\
  snd (getWarehouseCredentialsForProject db_down_env "p1" init_world) <>
    Rejected UnexpectedServerError /\
  (forall c, snd (getWarehouseCredentialsForProject db_down_env "p1" init_world) <>
             Fulfilled c).
Proof.
  split; [reflexivity|]. split; [reflexivity|].
  split; [discriminate|]. split; [discriminate|]. intros c. discriminate.
Qed.

(** C6 (amended): credential resolution changes no state; it fails with the
    error of the credential query when that query rejects; otherwise it
    fails with [NotExistsError] exactly when no credential row exists for
    the project, with [UnexpectedServerError] exactly when decrypting or
    parsing the stored blob fails, and returns the decrypted credentials in
    every other case. *)
Theorem getWarehouseCredentialsForProject_errors E p w :
  fst (getWarehouseCredentialsForProject E p w) = w /\
  (forall e, snd (getWarehouseCredentialsForProject E p w) = Rejected e <->
     db_credentials_row E p = Rejected e \/
     (db_credentials_row E p = Fulfilled None /\ e = NotExistsError) \/
     (e = UnexpectedServerError /\
      exists blob, db_credentials_row E p = Fulfilled (Some blob) /\
        (decrypt E blob = None \/
         exists plain, decrypt E blob = Some plain /\ parse_credentials E plain = None))) /\
  (forall c, snd (getWarehouseCredentialsForProject E p w) = Fulfilled c <->
   exists blob plain, db_credentials_row E p = Fulfilled (Some blob) /\
     decrypt E blob = Some plain /\ parse_credentials E plain = Some c).
Proof.
  split; [apply getWarehouseCredentialsForProject_world|].
  unfold getWarehouseCredentialsForProject, bind, await, ret, throw.
  destruct (db_credentials_row E p) as [[blob|]|e0] eqn:Hrow; simpl.
  - destruct (decrypt E blob) as [plain|] eqn:Hdec; simpl.
    + destruct (parse_credentials E plain) as [c0|] eqn:Hparse; simpl.
      * split.
        { intros e. split; [discriminate|].
          intros [H|[(H&_)|(_&b&Hb&[Hd|(pl&Hpl&Hp)])]]; simplify_eq; congruence. }
        intros c. split; [intros Hc; simplify_eq; eauto|].
        intros (b&pl&Hb&Hpl&Hp). simplify_eq; congruence.
      * split.
        { intros e. split.
          - intros H. injection H as <-. right. right. split; [done|eauto 10].
          - intros [H|[(H&_)|(->&_)]]; [discriminate|discriminate|done]. }
        intros c. split; [discriminate|].
        intros (b&pl&Hb&Hpl&Hp). simplify_eq; congruence.
    + split.
      { intros e. split.
        - intros H. injection H as <-. right. right. split; [done|eauto].
        - intros [H|[(H&_)|(->&_)]]; [discriminate|discriminate|done]. }
      intros c. split; [discriminate|].
      intros (b&pl&Hb&Hpl&Hp). simplify_eq; congruence.
  - split.
    { intros e. split.
      - intros H. injection H as <-. right. left. done.
      - intros [H|[(_&->)|(_&b&Hb&_)]]; [discriminate|done|discriminate]. }
    intros c. split; [discriminate|intros (b&pl&Hb&_); discriminate].
  - split.
    { intros e. split.
      - intros H. injection H as <-. by left.
      - intros [H|[(H&_)|(_&b&Hb&_)]]; [congruence|discriminate|discriminate]. }
    intros c. split; [discriminate|intros (b&pl&Hb&_); discriminate].
Qed.

(** ** C9 and C10: cache keys *)

(** C9: the cache key is a function of the project identifier and the query
    text only (deterministic), and two different query texts for the same
    project get the same key only through a collision of the SHA-256 digest
    itself: the hashed strings always differ. *)
Theorem queryHash_same_project_collision E1 E2 p q1 q2 :
  (sha256_hex E1 = sha256_hex E2 -> queryHash E1 p q1 = queryHash E2 p q1) /\
  (queryHash E1 p q1 = queryHash E1 p q2 -> q1 <> q2 ->
   exists x y, x <> y /\ sha256_hex E1 x = sha256_hex E1 y).
Proof.
  split.
  - unfold queryHash. intros ->. reflexivity.
  - unfold queryHash. intros Heq Hne.
    exists (p +:+ "." +:+ q1), (p +:+ "." +:+ q2). split; [|exact Heq].
    intros Happ. apply Hne.
    apply (inj (String.app p)) in Happ. apply (inj (String.app ".")) in Happ.
    exact Happ.
Qed.

(** Witness of C9: with a digest that maps every string to ["0"], two
    queries of one project share a key, which is a collision of the digest. *)
Lemma queryHash_same_project_collision_witness :
  queryHash constant_digest_env "p1" "SELECT 1" =
    queryHash constant_digest_env "p1" "SELECT 2" /\
  exists x y, x <> y /\ sha256_hex constant_digest_env x = sha256_hex constant_digest_env y.
Proof.
  split; [reflexivity|].
  apply (proj2 (queryHash_same_project_collision constant_digest_env
                  constant_digest_env "p1" "SELECT 1" "SELECT 2"));
    [reflexivity | discriminate].
Defined.

(** C10: for any digest, project ["a.b"] with query ["c"] and project ["a"]
    with query ["b.c"] are distinct pairs with the same cache key, since
    both hash the string ["a.b.c"]. *)
Theorem queryHash_separator_collision E :
  ("a.b", "c") <> ("a", "b.c") /\
  queryHash E "a.b" "c" = queryHash E "a" "b.c".
Proof. split; [discriminate|reflexivity]. Qed.

(** ** Result cache *)

Lemma bind_fulfilled {A B} (m : M A) (k : A -> M B) w b :
  snd (bind m k w) = Fulfilled b ->
  exists a w1, m w = (w1, Fulfilled a) /\ snd (k a w1) = Fulfilled b.
Proof.
  unfold bind. destruct (m w) as [w1 [a|e]]; simpl; [eauto|discriminate].
Qed.

Lemma bind_ext {A B} (m1 m2 : M A) (k1 k2 : A -> M B) :
  (forall w, m1 w = m2 w) -> (forall a w, k1 a w = k2 a w) ->
  forall w, bind m1 k1 w = bind m2 k2 w.
Proof.
  intros Hm Hk w. unfold bind. rewrite Hm.
  destruct (m2 w) as [w' [a|e]]; [apply Hk|reflexivity].
Qed.

Lemma w_after_nil w : w_after w [] [] = w.
Proof. unfold w_after. rewrite !app_nil_r. by destruct w. Qed.

Lemma lookupCache_disabled E key w :
  cache_enabled E = false -> lookupCache E key w = (w, Fulfilled None).
Proof. intros H. unfold lookupCache. rewrite H. reflexivity. Qed.

Lemma lookupCache_stale E key w lm :
  cache_enabled E = true ->
  s3_get_results_metadata E key = Fulfilled (Some lm) ->
  cacheStateTimeSeconds E * 1000 <= now E - lm ->
  lookupCache E key w = (w_after w [EvCacheMetadataRead key] [], Fulfilled None).
Proof.
  intros Hen Hmd Hage. unfold lookupCache. rewrite Hen.
  unfold bind, emit, await, catch_undefined. simpl. rewrite Hmd.
  simpl. unfold is_fresh.
  replace (now E - lm <? cacheStateTimeSeconds E * 1000) with false
    by (symmetry; apply Z.ltb_ge; lia).
  unfold w_after. rewrite app_nil_r. reflexivity.
Qed.

(** A cached answer is only returned for an entry whose age is below the
    threshold. *)
Lemma lookupCache_hit E key w w' r :
  lookupCache E key w = (w', Fulfilled (Some r)) ->
  cache_enabled E = true /\
  exists lm, s3_get_results_metadata E key = Fulfilled (Some lm) /\
             now E - lm < cacheStateTimeSeconds E * 1000.
Proof.
  unfold lookupCache. destruct (cache_enabled E); [|unfold ret; simpl; intros; congruence].
  unfold bind, emit, await, catch_undefined, ret, throw. simpl.
  destruct (s3_get_results_metadata E key) as [[lm|]|e]; simpl;
    try (intros; congruence).
  destruct (is_fresh E lm) eqn:Hf; simpl; [|intros; congruence].
  intros _. split; [done|]. exists lm. split; [done|].
  unfold is_fresh in Hf. by apply Z.ltb_lt.
Qed.

Lemma storeCache_enabled E key w :
  cache_enabled E = true ->
  storeCache E key w = (w_after w [EvCacheUpload key] [Fulfilled tt], Fulfilled tt).
Proof.
  intros H. unfold storeCache. rewrite H. simpl.
  unfold detach, catch_ignore. simpl.
  destruct (s3_upload_results E key); reflexivity.
Qed.

Lemma storeCache_disabled E key w :
  cache_enabled E = false -> storeCache E key w = (w, Fulfilled tt).
Proof. intros H. unfold storeCache. rewrite H. reflexivity. Qed.

(** A miss in the lookup runs the query against the warehouse, then starts
    the upload when caching is enabled. *)
Lemma getResultsFromCacheOrWarehouse_miss E p c q w w1 :
  lookupCache E (queryHash E p q) w = (w1, Fulfilled None) ->
  getResultsFromCacheOrWarehouse E p c q w =
  match warehouse_run_query E c q with
  | Fulfilled rows =>
      (if cache_enabled E
       then w_after w1 [EvWarehouseRun q; EvCacheUpload (queryHash E p q)] [Fulfilled tt]
       else w_after w1 [EvWarehouseRun q] [],
       Fulfilled (rows, mkCacheMetadata false None))
  | Rejected e => (w_after w1 [EvWarehouseRun q] [], Rejected e)
  end.
Proof.
  intros Hl. unfold getResultsFromCacheOrWarehouse. cbv zeta.
  unfold bind. rewrite Hl. unfold emit, await, ret, throw. simpl.
  destruct (warehouse_run_query E c q) as [rows|e]; simpl.
  - destruct (cache_enabled E) eqn:Hen.
    + rewrite storeCache_enabled by done. simpl.
      unfold w_after. simpl. rewrite <- app_assoc. reflexivity.
    + rewrite storeCache_disabled by done. simpl.
      unfold w_after. rewrite app_nil_r. reflexivity.
  - unfold w_after. rewrite app_nil_r. reflexivity.
Qed.

Lemma getResultsFromCacheOrWarehouse_fulfilled E p c q w rows md :
  snd (getResultsFromCacheOrWarehouse E p c q w) = Fulfilled (rows, md) ->
  (exists w1, lookupCache E (queryHash E p q) w = (w1, Fulfilled (Some (rows, md)))) \/
  (md = mkCacheMetadata false None /\ warehouse_run_query E c q = Fulfilled rows).
Proof.
  destruct (lookupCache E (queryHash E p q) w) as [w1 [[r|]|e]] eqn:Hl.
  - unfold getResultsFromCacheOrWarehouse. cbv zeta. unfold bind at 1.
    rewrite Hl. simpl. intros H. injection H as ->. left. eauto.
  - rewrite (getResultsFromCacheOrWarehouse_miss E p c q w w1 Hl).
    destruct (warehouse_run_query E c q) as [rows'|e]; simpl; [|discriminate].
    intros H. injection H as -> <-. right. done.
  - unfold getResultsFromCacheOrWarehouse. cbv zeta. unfold bind at 1.
    rewrite Hl. simpl. discriminate.
Qed.

Lemma runMetricQuery_fulfilled E o p u w r :
  snd (runMetricQuery E o p u w) = Fulfilled r ->
  exists w0 cl, snd (getResultsFromCacheOrWarehouse E p cl (res_query r) w0) =
                Fulfilled (res_rows r, res_cacheMetadata r).
Proof.
  unfold runMetricQuery. intros H.
  apply bind_fulfilled in H as (ct&w1&_&H).
  apply bind_fulfilled in H as (ua&w2&_&H).
  apply bind_fulfilled in H as (qb&w3&_&H).
  apply bind_fulfilled in H as (rc&w4&Hrc&H).
  apply bind_fulfilled in H as (u'&w5&_&H).
  simpl in H. injection H as <-. simpl.
  exists w3, ct.1. rewrite Hrc. by destruct rc.
Qed.

(** C4: an entry whose age ([now - lastModified]) is at least the configured
    threshold ([cacheStateTimeSeconds] seconds; equality counts as stale) is
    never returned by the lookup, which reads no payload; the call then runs
    the query against the warehouse; and when every entry is stale, every
    result of [runMetricQuery] is a cache miss carrying warehouse rows. *)
Theorem cache_stale_entries_not_served E (Hen : cache_enabled E = true) :
  (forall key w lm,
     s3_get_results_metadata E key = Fulfilled (Some lm) ->
     cacheStateTimeSeconds E * 1000 <= now E - lm ->
     lookupCache E key w = (w_after w [EvCacheMetadataRead key] [], Fulfilled None)) /\
  (forall p c q w lm,
     s3_get_results_metadata E (queryHash E p q) = Fulfilled (Some lm) ->
     cacheStateTimeSeconds E * 1000 <= now E - lm ->
     getResultsFromCacheOrWarehouse E p c q w =
     match warehouse_run_query E c q with
     | Fulfilled rows =>
         (w_after w [EvCacheMetadataRead (queryHash E p q); EvWarehouseRun q;
                     EvCacheUpload (queryHash E p q)] [Fulfilled tt],
          Fulfilled (rows, mkCacheMetadata false None))
     | Rejected e =>
         (w_after w [EvCacheMetadataRead (queryHash E p q); EvWarehouseRun q] [],
          Rejected e)
     end) /\
  ((forall key lm, s3_get_results_metadata E key = Fulfilled (Some lm) ->
                   cacheStateTimeSeconds E * 1000 <= now E - lm) ->
   forall o p u w r, snd (runMetricQuery E o p u w) = Fulfilled r ->
   cacheHit (res_cacheMetadata r) = false /\
   exists cl, warehouse_run_query E cl (res_query r) = Fulfilled (res_rows r)).
Proof.
  split; [|split].
  - intros key w lm. by apply lookupCache_stale.
  - intros p c q w lm Hmd Hage.
    rewrite (getResultsFromCacheOrWarehouse_miss E p c q w _
               (lookupCache_stale E _ w lm Hen Hmd Hage)).
    rewrite Hen. unfold w_after. simpl. rewrite <- !app_assoc.
    destruct (warehouse_run_query E c q); reflexivity.
  - intros Hstale o p u w r Hr.
    destruct (runMetricQuery_fulfilled E o p u w r Hr) as (w0&cl&Hres).
    apply getResultsFromCacheOrWarehouse_fulfilled in Hres
      as [(w1&Hl)|(Hmd&Hrows)].
    + exfalso. apply lookupCache_hit in Hl as (_&lm&Hmd&Hfresh).
      specialize (Hstale _ _ Hmd). lia.
    + rewrite Hmd. eauto.
Qed.

(** Witness of C4: an entry exactly one hour old under a one-hour threshold
    is stale, and the query runs against the warehouse. *)
Lemma cache_stale_entries_not_served_witness :
  let E := sample_env true (Fulfilled (Some 6400000)) (Fulfilled (Some "cached"))
             (Fulfilled sample_rows) (Fulfilled tt) [] in
  getResultsFromCacheOrWarehouse E "p1" (mkClient 0 sample_ssh_credentials)
    "SELECT 1" init_world =
  (w_after init_world [EvCacheMetadataRead "p1.SELECT 1"; EvWarehouseRun "SELECT 1";
                       EvCacheUpload "p1.SELECT 1"] [Fulfilled tt],
   Fulfilled (sample_rows, mkCacheMetadata false None)).
Proof.
  intros E.
  exact (proj1 (proj2 (cache_stale_entries_not_served E eq_refl))
           "p1" (mkClient 0 sample_ssh_credentials) "SELECT 1" init_world 6400000
           eq_refl ltac:(vm_compute; discriminate)).
Defined.

(** ** Caching disabled *)

Lemma getAttributeValuesForOrgMember_world E o u w :
  fst (getAttributeValuesForOrgMember E o u w) = w.
Proof.
  unfold getAttributeValuesForOrgMember, bind, await, ret, throw.
  destruct (db_org_attributes E o); [|reflexivity].
  destruct (db_user_values E o u); reflexivity.
Qed.

Lemma emit_cache_free e :
  is_cache_event e = false -> preserves cache_free_step (emit e).
Proof. intros He w. exists [e]. simpl. split; [done|]. split; [by constructor|done]. Qed.

Lemma world_cache_free {A} (m : M A) :
  (forall w, w_trace (fst (m w)) = w_trace w /\ w_pending (fst (m w)) = w_pending w) ->
  preserves cache_free_step m.
Proof.
  intros H w. destruct (H w) as [Ht Hp]. exists []. rewrite app_nil_r.
  split; [done|]. split; [constructor|done].
Qed.

Lemma getWarehouseClient_cache_free E p :
  preserves cache_free_step (getWarehouseClient E p).
Proof.
  unfold getWarehouseClient. apply preserves_bind; try order_instance.
  { apply world_cache_free. intros w.
    by rewrite getWarehouseCredentialsForProject_world. }
  intros c. apply preserves_bind; try order_instance.
  { intros w. unfold sshTunnelConnect.
    destruct (tunnel_connect_fails E); [reflexivity|].
    exists [EvTunnelConnect].
    destruct (cred_useSshTunnel c); simpl; (split; [done|]);
      (split; [by constructor|done]). }
  intros eff. apply preserves_bind; try order_instance.
  { apply world_cache_free. intros w. rewrite cachedOrNewClient_eq.
    repeat case_match; simpl; auto. }
  intros cl. apply preserves_ret. order_instance.
Qed.

Lemma getResultsFromCacheOrWarehouse_disabled E p c q w :
  cache_enabled E = false ->
  getResultsFromCacheOrWarehouse E p c q w =
  (w_after w [EvWarehouseRun q] [],
   match warehouse_run_query E c q with
   | Fulfilled rows => Fulfilled (rows, mkCacheMetadata false None)
   | Rejected e => Rejected e
   end).
Proof.
  intros H.
  rewrite (getResultsFromCacheOrWarehouse_miss E p c q w w
             (lookupCache_disabled E _ w H)), H.
  destruct (warehouse_run_query E c q); reflexivity.
Qed.

(** C8: with caching disabled, [runMetricQuery] makes no cache read and no
    cache write and starts no upload; the lookup/warehouse step is exactly
    one warehouse run; and every result it returns is marked
    [cacheHit: false] and carries rows returned by the warehouse for the
    built query. *)
Theorem cache_disabled_no_cache_io E (Hdis : cache_enabled E = false) :
  (forall o p u, preserves cache_free_step (runMetricQuery E o p u)) /\
  (forall p c q w,
     getResultsFromCacheOrWarehouse E p c q w =
     (w_after w [EvWarehouseRun q] [],
      match warehouse_run_query E c q with
      | Fulfilled rows => Fulfilled (rows, mkCacheMetadata false None)
      | Rejected e => Rejected e
      end)) /\
  (forall o p u w r, snd (runMetricQuery E o p u w) = Fulfilled r ->
     res_cacheMetadata r = mkCacheMetadata false None /\
     exists cl, warehouse_run_query E cl (res_query r) = Fulfilled (res_rows r)).
Proof.
  split; [|split].
  - intros o p u. unfold runMetricQuery.
    apply preserves_bind; try order_instance; [apply getWarehouseClient_cache_free|].
    intros ct. apply preserves_bind; try order_instance.
    { apply world_cache_free. intros w. by rewrite getAttributeValuesForOrgMember_world. }
    intros ua. apply preserves_bind; try order_instance;
      [apply preserves_await; order_instance|].
    intros qb. apply preserves_bind; try order_instance.
    { intros w. rewrite getResultsFromCacheOrWarehouse_disabled by done.
      exists [EvWarehouseRun qb.1]. simpl. rewrite app_nil_r.
      split; [done|]. split; [by constructor|done]. }
    intros rc. apply preserves_bind; try order_instance;
      [by apply emit_cache_free|].
    intros _. apply preserves_ret. order_instance.
  - intros p c q w. by apply getResultsFromCacheOrWarehouse_disabled.
  - intros o p u w r Hr.
    destruct (runMetricQuery_fulfilled E o p u w r Hr) as (w0&cl&Hres).
    rewrite getResultsFromCacheOrWarehouse_disabled in Hres by done.
    simpl in Hres. destruct (warehouse_run_query E cl (res_query r)) eqn:Hw;
      [|discriminate].
    injection Hres as <- <-. eauto.
Qed.

(** Witness of C8. *)
Lemma cache_disabled_no_cache_io_witness :
  let E := sample_env false (Fulfilled (Some 9000000)) (Fulfilled (Some "cached"))
             (Fulfilled sample_rows) (Fulfilled tt) [] in
  cache_free_step init_world (fst (runMetricQuery E "o1" "p1" "u1" init_world)) /\
  res_cacheMetadata (mkMetricQueryResult sample_rows (mkCacheMetadata false None)
                       "SELECT 1" false "postgres") = mkCacheMetadata false None.
Proof.
  intros E. split.
  - exact (proj1 (cache_disabled_no_cache_io E eq_refl) "o1" "p1" "u1" init_world).
  - apply (proj2 (proj2 (cache_disabled_no_cache_io E eq_refl)) "o1" "p1" "u1"
             init_world).
    vm_compute. reflexivity.
Defined.

(** ** Fire-and-forget upload *)

Lemma storeCache_with_upload E up key w :
  storeCache (with_upload E up) key w = storeCache E key w.
Proof.
  unfold storeCache. change (cache_enabled (with_upload E up)) with (cache_enabled E).
  destruct (cache_enabled E); [|reflexivity].
  unfold bind, emit, detach, catch_ignore. simpl.
  destruct (up key), (s3_upload_results E key); reflexivity.
Qed.

Lemma getResultsFromCacheOrWarehouse_with_upload E up p c q w :
  getResultsFromCacheOrWarehouse (with_upload E up) p c q w =
  getResultsFromCacheOrWarehouse E p c q w.
Proof.
  unfold getResultsFromCacheOrWarehouse. cbv zeta.
  apply bind_ext; [intros; reflexivity|]. intros [r|] w1; [reflexivity|].
  apply bind_ext; [intros; reflexivity|]. intros [] w2.
  apply bind_ext; [intros; reflexivity|]. intros rows w3.
  apply bind_ext; [apply storeCache_with_upload|intros; reflexivity].
Qed.

Lemma emit_pending e : preserves pending_caught_step (emit e).
Proof. intros w. exists []. simpl. rewrite app_nil_r. split; [done|constructor]. Qed.

Lemma detach_pending o : preserves pending_caught_step (detach (catch_ignore o)).
Proof.
  intros w. exists [Fulfilled tt]. simpl.
  split; [by destruct o|]. repeat constructor.
Qed.

Lemma cache_free_pending {A} (m : M A) :
  preserves cache_free_step m -> preserves pending_caught_step m.
Proof.
  intros H w. destruct (H w) as (tr&_&_&Hp). exists []. rewrite app_nil_r.
  split; [done|constructor].
Qed.

Lemma getAttributeValuesForOrgMember_pending E o u :
  preserves pending_caught_step (getAttributeValuesForOrgMember E o u).
Proof. intros w. rewrite getAttributeValuesForOrgMember_world. reflexivity. Qed.

Ltac pending_base :=
  first [ apply emit_pending | apply detach_pending
        | apply getAttributeValuesForOrgMember_pending
        | apply cache_free_pending; apply getWarehouseClient_cache_free
        | progress unfold sshTunnelDisconnect, lookupCache, storeCache,
                          getResultsFromCacheOrWarehouse
        | progress cbv zeta ].

(** C7: the result-cache write is started and not awaited: the outcome of
    [uploadResults] (fulfilled or rejected) changes nothing in what
    [runMetricQuery] returns or in the state it leaves; every promise it
    leaves running is the caught upload, which never rejects; and on a
    cache miss with caching enabled, the upload is issued after the
    warehouse run and the rows and metadata returned are the warehouse rows
    with [cacheHit: false]. *)
Theorem upload_fire_and_forget E o p u :
  (forall upload w, runMetricQuery (with_upload E upload) o p u w =
                    runMetricQuery E o p u w) /\
  preserves pending_caught_step (runMetricQuery E o p u) /\
  (forall c q w w1 rows,
     cache_enabled E = true ->
     lookupCache E (queryHash E p q) w = (w1, Fulfilled None) ->
     warehouse_run_query E c q = Fulfilled rows ->
     getResultsFromCacheOrWarehouse E p c q w =
     (w_after w1 [EvWarehouseRun q; EvCacheUpload (queryHash E p q)] [Fulfilled tt],
      Fulfilled (rows, mkCacheMetadata false None))).
Proof.
  split; [|split].
  - intros upload. unfold runMetricQuery.
    apply bind_ext; [intros; reflexivity|]. intros ct w1.
    apply bind_ext; [intros; reflexivity|]. intros ua w2.
    apply bind_ext; [intros; reflexivity|]. intros qb w3.
    apply bind_ext; [apply getResultsFromCacheOrWarehouse_with_upload|].
    intros rc w4. reflexivity.
  - unfold runMetricQuery. apply preserves_bind; try order_instance.
    { apply cache_free_pending, getWarehouseClient_cache_free. }
    intros ct. preserves_by pending_base.
  - intros c q w w1 rows Hen Hl Hw.
    rewrite (getResultsFromCacheOrWarehouse_miss E p c q w w1 Hl), Hw, Hen.
    reflexivity.
Qed.

(** Witness of C7: a rejected upload on a cache miss. *)
Lemma upload_fire_and_forget_witness :
  let E := sample_env true (Fulfilled None) (Fulfilled None)
             (Fulfilled sample_rows) (Rejected S3Error) [] in
  getResultsFromCacheOrWarehouse E "p1" (mkClient 0 sample_ssh_credentials)
    "SELECT 1" init_world =
  (w_after (w_after init_world [EvCacheMetadataRead "p1.SELECT 1"] [])
     [EvWarehouseRun "SELECT 1"; EvCacheUpload "p1.SELECT 1"] [Fulfilled tt],
   Fulfilled (sample_rows, mkCacheMetadata false None)).
Proof.
  intros E.
  apply (proj2 (proj2 (upload_fire_and_forget E "o1" "p1" "u1"))); vm_compute;
    reflexivity.
Defined.

(** ** C5: user attributes *)

Section FoldInsert.
Context {X V : Type}.
Variable g : string * X -> V.


End FoldInsert.



Lemma getAttributeValuesForOrgMember_errors E o u w e :
  snd (getAttributeValuesForOrgMember E o u w) = Rejected e ->
  db_org_attributes E o = Rejected e \/ exists attrs, db_org_attributes E o = Fulfilled attrs /\ db_user_values E o u = Rejected e.
Proof.
  unfold getAttributeValuesForOrgMember, bind, await, ret, throw.
  destruct (db_org_attributes E o) as [attrs|e']; simpl; [|intros H; injection H as ->; auto].
  destruct (db_user_values E o u) as [uvs|e']; simpl; [discriminate|].
  intros H. injection H as ->. eauto.
Qed.


(** ** C1 and C2: error paths of [runMetricQuery] *)

(** C1: on the success path the tunnel is disconnected once, but when the
    warehouse query throws after the tunnel was connected, the error
    propagates from [runMetricQuery] and from [runQuery] without any call
    to [disconnect]. *)
Theorem tunnel_not_disconnected_on_warehouse_error :
  let ok := sample_env true (Fulfilled None) (Fulfilled None)
              (Fulfilled sample_rows) (Fulfilled tt) [] in
  let bad := sample_env true (Fulfilled None) (Fulfilled None)
               (Rejected WarehouseQueryError) (Fulfilled tt) [] in
  (let '(w', r) := runMetricQuery ok "o1" "p1" "u1" init_world in
   (exists v, r = Fulfilled v) /\
   count_event EvTunnelConnect (w_trace w') = 1%nat /\
   count_event EvTunnelDisconnect (w_trace w') = 1%nat) /\
  (let '(w', r) := runMetricQuery bad "o1" "p1" "u1" init_world in
   r = Rejected WarehouseQueryError /\
   count_event EvTunnelConnect (w_trace w') = 1%nat /\
   count_event EvTunnelDisconnect (w_trace w') = 0%nat) /\
  (let '(w', r) := runQuery bad "p1" "SELECT 1" init_world in
   r = Rejected WarehouseQueryError /\
   count_event EvTunnelConnect (w_trace w') = 1%nat /\
   count_event EvTunnelDisconnect (w_trace w') = 0%nat).
Proof. vm_compute. split; [split; [eauto|split; reflexivity]|]. repeat split. Qed.

(** C2: a failure of the metadata fetch is recovered (the call falls
    through to the warehouse and answers with [cacheHit: false]), but a
    failure of the payload fetch for a fresh entry is not caught and
    [runMetricQuery] fails with it. *)
Theorem payload_fetch_failure_surfaces :
  let md_down := sample_env true (Rejected S3Error) (Fulfilled (Some "cached"))
                   (Fulfilled sample_rows) (Fulfilled tt) [] in
  let payload_down := sample_env true (Fulfilled (Some 9000000)) (Rejected S3Error)
                        (Fulfilled sample_rows) (Fulfilled tt) [] in
  snd (runMetricQuery md_down "o1" "p1" "u1" init_world) =
    Fulfilled (mkMetricQueryResult sample_rows (mkCacheMetadata false None)
                 "SELECT 1" false "postgres") /\
  snd (runMetricQuery payload_down "o1" "p1" "u1" init_world) = Rejected S3Error /\
  w_trace (fst (runMetricQuery payload_down "o1" "p1" "u1" init_world)) =
    [EvTunnelConnect; EvCacheMetadataRead "p1.SELECT 1";
     EvCacheResultsRead "p1.SELECT 1"].
Proof. vm_compute. repeat split. Qed.

(** ** Client resolution, tunnel calls and the result cache in general *)

Global Instance trace_step_refl ok : Reflexive (trace_step ok).
Proof. intros w. exists []. rewrite app_nil_r. auto. Qed.
Global Instance trace_step_trans ok : Transitive (trace_step ok).
Proof.
  intros w1 w2 w3 (t1&H1&F1) (t2&H2&F2). exists (t1 ++ t2).
  rewrite H2, H1, app_assoc. split; [done|by apply Forall_app].
Qed.

Lemma bind_cases {A B} (m : M A) (k : A -> M B) w w' r :
  bind m k w = (w', r) ->
  (exists e, m w = (w', Rejected e) /\ r = Rejected e) \/
  (exists a w1, m w = (w1, Fulfilled a) /\ k a w1 = (w', r)).
Proof.
  unfold bind. destruct (m w) as [w1 [a|e]]; intros H; [right; eauto|].
  injection H as -> <-. left. eauto.
Qed.

Lemma emit_trace (ok : event -> Prop) e : ok e -> preserves (trace_step ok) (emit e).
Proof. intros He w. exists [e]. simpl. split; [done|by constructor]. Qed.

Lemma detach_trace ok o : preserves (trace_step ok) (detach o).
Proof. intros w. exists []. simpl. rewrite app_nil_r. split; [done|constructor]. Qed.

Ltac no_tunnel_base :=
  first [ apply emit_trace; reflexivity | apply detach_trace
        | progress unfold lookupCache, storeCache ].

Lemma getResultsFromCacheOrWarehouse_no_tunnel E p c q :
  preserves (trace_step (fun e => is_tunnel_event e = false))
    (getResultsFromCacheOrWarehouse E p c q).
Proof. unfold getResultsFromCacheOrWarehouse. cbv zeta. preserves_by no_tunnel_base. Qed.

(** The state and the error of a failing [getWarehouseClient]. *)
Lemma getWarehouseClient_rejected_inv E p w w' e :
  getWarehouseClient E p w = (w', Rejected e) ->
  w_pending w' = w_pending w /\ w_clients w' = w_clients w /\
  w_next_client w' = w_next_client w /\
  ((w' = w /\ snd (getWarehouseCredentialsForProject E p w) = Rejected e) \/
   (w' = w /\ (exists c, snd (getWarehouseCredentialsForProject E p w) = Fulfilled c) /\
    tunnel_connect_fails E = true /\ e = TunnelError) \/
   (exists c eff, snd (getWarehouseCredentialsForProject E p w) = Fulfilled c /\
    sshTunnelConnect E c w = (w', Fulfilled eff) /\
    client_construction_error E eff = Some e /\
    w_trace w' = w_trace w ++ [EvTunnelConnect])).
Proof.
  unfold getWarehouseClient. intros H.
  pose proof (getWarehouseCredentialsForProject_world E p w) as Hw.
  apply bind_cases in H as [(e'&Hc&He)|(c&w1&Hc&H)].
  - rewrite Hc in Hw |- *. simpl in Hw. subst w'. injection He as ->.
    split_and!; auto.
  - rewrite Hc in Hw |- *. simpl in Hw. subst w1.
    apply bind_cases in H as [(e'&Ht&He)|(eff&w2&Ht&H)].
    + injection He as ->. unfold sshTunnelConnect in Ht.
      destruct (tunnel_connect_fails E) eqn:Hf;
        [|destruct (cred_useSshTunnel c); discriminate].
      injection Ht as -> ->. split_and!; auto. right. left. eauto.
    + apply bind_cases in H as [(e'&Hn&He)|(cl&w3&Hn&H)]; [|discriminate].
      injection He as <-.
      assert (Heff : w_trace w2 = w_trace w ++ [EvTunnelConnect] /\
                     w_pending w2 = w_pending w /\ w_clients w2 = w_clients w /\
                     w_next_client w2 = w_next_client w).
      { unfold sshTunnelConnect in Ht.
        destruct (tunnel_connect_fails E); [discriminate|].
        destruct (cred_useSshTunnel c); injection Ht as <- <-; auto. }
      rewrite cachedOrNewClient_eq in Hn. cbv zeta in Hn.
      assert (w' = w2 /\ client_construction_error E eff = Some e) as [-> Hce].
      { repeat case_match; simplify_eq; auto. }
      destruct Heff as (?&?&?&?). split_and!; auto. right. right. eauto 10.
Qed.

(** X1: a failing [getWarehouseClient] leaves the registry, the pending
    work and the client counter as they were, and fails in one of three
    ways: with the error of the credential lookup, state unchanged; after a
    successful lookup, with the tunnel's connection error, state unchanged;
    or, after the lookup and the tunnel connect succeeded, with the error
    of the client factory, the tunnel left connected (its connect is in the
    trace, no disconnect follows). *)
Theorem getWarehouseClient_failure E p w w' e :
  getWarehouseClient E p w = (w', Rejected e) ->
  w_pending w' = w_pending w /\ w_clients w' = w_clients w /\
  w_next_client w' = w_next_client w /\
  ((w' = w /\ snd (getWarehouseCredentialsForProject E p w) = Rejected e) \/
   (w' = w /\ (exists c, snd (getWarehouseCredentialsForProject E p w) = Fulfilled c) /\
    tunnel_connect_fails E = true /\ e = TunnelError) \/
   (exists c eff, snd (getWarehouseCredentialsForProject E p w) = Fulfilled c /\
    sshTunnelConnect E c w = (w', Fulfilled eff) /\
    client_construction_error E eff = Some e /\
    w_trace w' = w_trace w ++ [EvTunnelConnect])).
Proof. apply getWarehouseClient_rejected_inv. Qed.

(** Witness: the client factory throws after the tunnel of [p1] was
    connected. *)
Lemma getWarehouseClient_failure_witness :
  let E := factory_down_env in
  let w' := mkWorld [EvTunnelConnect] [] ∅ 0 40001 in
  w_pending w' = w_pending init_world /\ w_clients w' = w_clients init_world /\
  w_next_client w' = w_next_client init_world /\
  ((w' = init_world /\ snd (getWarehouseCredentialsForProject E "p1" init_world) =
                        Rejected WarehouseClientError) \/
   (w' = init_world /\
    (exists c, snd (getWarehouseCredentialsForProject E "p1" init_world) = Fulfilled c) /\
    tunnel_connect_fails E = true /\ WarehouseClientError = TunnelError) \/
   (exists c eff, snd (getWarehouseCredentialsForProject E "p1" init_world) = Fulfilled c /\
    sshTunnelConnect E c init_world = (w', Fulfilled eff) /\
    client_construction_error E eff = Some WarehouseClientError /\
    w_trace w' = w_trace init_world ++ [EvTunnelConnect])).
Proof.
  intros E w'.
  refine (getWarehouseClient_failure E "p1" init_world w' WarehouseClientError _).
  vm_compute. reflexivity.
Defined.

(** The calls and the registry of a successful [getWarehouseClient]. *)
Lemma getWarehouseClient_fulfilled_inv E p w w' cl c :
  getWarehouseClient E p w = (w', Fulfilled (cl, c)) ->
  getWarehouseCredentialsForProject E p w = (w, Fulfilled c) /\
  w_trace w' = w_trace w ++ [EvTunnelConnect] /\ w_pending w' = w_pending w /\
  w_clients w' = <[p := cl]> (w_clients w) /\
  cred_type (client_credentials cl) = cred_type c.
Proof.
  unfold getWarehouseClient. intros H.
  pose proof (getWarehouseCredentialsForProject_world E p w) as Hw.
  apply bind_cases in H as [(e'&Hc&He)|(c'&w1&Hc&H)]; [discriminate|].
  rewrite Hc in Hw. simpl in Hw. subst w1.
  apply bind_cases in H as [(e'&Ht&He)|(eff&w2&Ht&H)]; [discriminate|].
  apply bind_cases in H as [(e'&Hn&He)|(cl'&w3&Hn&H)]; [discriminate|].
  unfold ret in H. injection H as <- <- <-.
  assert (Heff : w_trace w2 = w_trace w ++ [EvTunnelConnect] /\
                 w_pending w2 = w_pending w /\ w_clients w2 = w_clients w /\
                 cred_type eff = cred_type c').
  { unfold sshTunnelConnect in Ht.
    destruct (tunnel_connect_fails E); [discriminate|].
    destruct (cred_useSshTunnel c'); injection Ht as <- <-; auto. }
  destruct Heff as (Htr&Hp&Hcl&Hty).
  rewrite cachedOrNewClient_eq in Hn.
  split; [done|].
  destruct (w_clients w2 !! p) as [old|] eqn:Hold.
  - destruct (deepEqual (client_credentials old) eff) eqn:Hdeq.
    + injection Hn as <- <-. unfold deepEqual in Hdeq.
      apply bool_decide_eq_true in Hdeq.
      rewrite <- Hcl, insert_id by done. rewrite Hdeq. auto.
    + cbv zeta in Hn. destruct (client_construction_error E eff); [discriminate|].
      injection Hn as <- <-. simpl. rewrite Hcl. auto.
  - cbv zeta in Hn. destruct (client_construction_error E eff); [discriminate|].
    injection Hn as <- <-. simpl. rewrite Hcl. auto.
Qed.

(** X2: a successful [getWarehouseClient] has read the stored credentials,
    has connected the tunnel once (and made no other call), and leaves the
    registry mapping the project to the client it returns, every other
    project's entry unchanged; the client's warehouse type is the type of
    the stored credentials. *)
Theorem getWarehouseClient_success E p w w' cl c :
  getWarehouseClient E p w = (w', Fulfilled (cl, c)) ->
  getWarehouseCredentialsForProject E p w = (w, Fulfilled c) /\
  w_trace w' = w_trace w ++ [EvTunnelConnect] /\ w_pending w' = w_pending w /\
  w_clients w' = <[p := cl]> (w_clients w) /\
  cred_type (client_credentials cl) = cred_type c.
Proof. apply getWarehouseClient_fulfilled_inv. Qed.

(** Witness: the SSH credentials of [p1] are rewritten to the tunnel's
    local endpoint and a new client is registered. *)
Lemma getWarehouseClient_success_witness :
  let cl := mkClient 0 (mkCredentials "postgres" "127.0.0.1" 40000 "analyst"
                          "secret" true) in
  let w' := mkWorld [EvTunnelConnect] [] (<["p1" := cl]> ∅) 1 40001 in
  getWarehouseCredentialsForProject sample_env_ok "p1" init_world =
    (init_world, Fulfilled sample_ssh_credentials) /\
  w_trace w' = w_trace init_world ++ [EvTunnelConnect] /\
  w_pending w' = w_pending init_world /\
  w_clients w' = <["p1" := cl]> (w_clients init_world) /\
  cred_type (client_credentials cl) = cred_type sample_ssh_credentials.
Proof.
  intros cl w'.
  apply (getWarehouseClient_success sample_env_ok "p1" init_world w' cl
           sample_ssh_credentials).
  vm_compute. reflexivity.
Defined.

(** X3: [runQuery] never touches the result cache: on success it has made
    exactly three calls, tunnel connect, the warehouse run of the query and
    tunnel disconnect, and returns the warehouse rows; on failure the tunnel
    is either not connected, or connected and left open (the client factory
    threw), or connected and left open after the warehouse run. *)
Theorem runQuery_calls E p q w w' r :
  runQuery E p q w = (w', r) ->
  match r with
  | Fulfilled rows =>
      w_trace w' = w_trace w ++ [EvTunnelConnect; EvWarehouseRun q; EvTunnelDisconnect] /\
      exists cl, warehouse_run_query E cl q = Fulfilled rows
  | Rejected _ =>
      w_trace w' = w_trace w \/
      w_trace w' = w_trace w ++ [EvTunnelConnect] \/
      w_trace w' = w_trace w ++ [EvTunnelConnect; EvWarehouseRun q]
  end.
Proof.
  unfold runQuery. intros H.
  apply bind_cases in H as [(e&Hg&->)|([cl c]&w1&Hg&H)].
  - apply getWarehouseClient_rejected_inv in Hg
      as (_&_&_&[(->&_)|[(->&_)|(c&eff&_&_&_&Htr)]]); auto.
  - apply getWarehouseClient_fulfilled_inv in Hg as (_&Htr&_).
    unfold bind, emit, await, sshTunnelDisconnect, ret, throw in H. simpl in H.
    destruct (warehouse_run_query E cl q) as [rows|e] eqn:Hq;
      injection H as <- <-; simpl; rewrite Htr, <- !app_assoc.
    + split; [done|eauto].
    + by right; right.
Qed.

(** Witness: the warehouse rejects the query; the tunnel stays open. *)
Lemma runQuery_calls_witness :
  let bad := sample_env true (Fulfilled None) (Fulfilled None)
               (Rejected WarehouseQueryError) (Fulfilled tt) [] in
  let cl := mkClient 0 (mkCredentials "postgres" "127.0.0.1" 40000 "analyst"
                          "secret" true) in
  let w' := mkWorld [EvTunnelConnect; EvWarehouseRun "SELECT 1"] []
                    (<["p1" := cl]> ∅) 1 40001 in
  w_trace w' = w_trace init_world \/
  w_trace w' = w_trace init_world ++ [EvTunnelConnect] \/
  w_trace w' = w_trace init_world ++ [EvTunnelConnect; EvWarehouseRun "SELECT 1"].
Proof.
  intros bad cl w'.
  apply (runQuery_calls bad "p1" "SELECT 1" init_world w'
           (Rejected WarehouseQueryError)).
  vm_compute. reflexivity.
Defined.

(** X4: on success [runMetricQuery] connects the tunnel first and
    disconnects it last, each exactly once, with only cache and warehouse
    calls in between; a failing call never disconnects: either nothing was
    called or the connected tunnel is left open. *)
Theorem runMetricQuery_tunnel_calls E o p u w w' r :
  runMetricQuery E o p u w = (w', r) ->
  exists tr, Forall (fun e => is_tunnel_event e = false) tr /\
  match r with
  | Fulfilled _ => w_trace w' = w_trace w ++ [EvTunnelConnect] ++ tr ++ [EvTunnelDisconnect]
  | Rejected _ => w_trace w' = w_trace w \/ w_trace w' = w_trace w ++ [EvTunnelConnect] ++ tr
  end.
Proof.
  unfold runMetricQuery. intros H.
  apply bind_cases in H as [(e&Hg&->)|([cl c]&w1&Hg&H)].
  { apply getWarehouseClient_rejected_inv in Hg
      as (_&_&_&[(->&_)|[(->&_)|(c&eff&_&_&_&Htr)]]); exists []; auto. }
  apply getWarehouseClient_fulfilled_inv in Hg as (_&Htr&_). cbn [fst] in H.
  pose proof (getAttributeValuesForOrgMember_world E o u w1) as Hw2.
  apply bind_cases in H as [(e&Ha&->)|(ua&w2&Ha&H)].
  { rewrite Ha in Hw2. simpl in Hw2. subst w'. exists [].
    split; [constructor|]. right. by rewrite Htr, app_nil_r. }
  rewrite Ha in Hw2. simpl in Hw2. subst w2.
  apply bind_cases in H as [(e&Hb&->)|(qb&w3&Hb&H)].
  { unfold await, ret, throw in Hb. destruct (build_query E ua); simplify_eq.
    exists []. split; [constructor|]. right. by rewrite Htr, app_nil_r. }
  assert (w3 = w1) as ->.
  { unfold await, ret, throw in Hb. destruct (build_query E ua); congruence. }
  pose proof (getResultsFromCacheOrWarehouse_no_tunnel E p cl qb.1 w1)
    as (tr&Htr4&Hok).
  apply bind_cases in H as [(e&Hr&->)|(rc&w4&Hr&H)].
  { rewrite Hr in Htr4. simpl in Htr4. exists tr. split; [done|].
    right. by rewrite Htr4, Htr, <- app_assoc. }
  rewrite Hr in Htr4. simpl in Htr4.
  unfold bind, sshTunnelDisconnect, emit, ret in H. injection H as <- <-.
  exists tr. split; [done|]. simpl. by rewrite Htr4, Htr, <- !app_assoc.
Qed.

(** Witness: a cache miss answered by the warehouse. *)
Lemma runMetricQuery_tunnel_calls_witness :
  let cl := mkClient 0 (mkCredentials "postgres" "127.0.0.1" 40000 "analyst"
                          "secret" true) in
  let w' := mkWorld [EvTunnelConnect; EvCacheMetadataRead "p1.SELECT 1";
                     EvWarehouseRun "SELECT 1"; EvCacheUpload "p1.SELECT 1";
                     EvTunnelDisconnect] [Fulfilled tt]
                    (<["p1" := cl]> ∅) 1 40001 in
  exists tr, Forall (fun e => is_tunnel_event e = false) tr /\
  w_trace w' = w_trace init_world ++ [EvTunnelConnect] ++ tr ++ [EvTunnelDisconnect].
Proof.
  intros cl w'.
  apply (runMetricQuery_tunnel_calls sample_env_ok "o1" "p1" "u1" init_world w'
           (Fulfilled (mkMetricQueryResult sample_rows (mkCacheMetadata false None)
                         "SELECT 1" false "postgres"))).
  vm_compute. reflexivity.
Defined.

(** X5: the warehouse type reported by [runMetricQuery] is the type in the
    project's stored credentials, also when a cached client is reused. *)
Theorem runMetricQuery_warehouseType E o p u w r :
  snd (runMetricQuery E o p u w) = Fulfilled r ->
  exists c, snd (getWarehouseCredentialsForProject E p w) = Fulfilled c /\
            res_warehouseType r = cred_type c.
Proof.
  unfold runMetricQuery. intros H.
  apply bind_fulfilled in H as ([cl c]&w1&Hg&H).
  apply getWarehouseClient_fulfilled_inv in Hg as (Hc&_&_&_&Hty).
  apply bind_fulfilled in H as (ua&w2&_&H).
  apply bind_fulfilled in H as (qb&w3&_&H).
  apply bind_fulfilled in H as (rc&w4&_&H).
  apply bind_fulfilled in H as (u'&w5&_&H).
  simpl in H. injection H as <-. exists c. rewrite Hc. by split.
Qed.

(** Witness: a second [runMetricQuery] for [p1], whose credentials use no
    SSH tunnel, reuses the client the first call registered (client [0],
    while the next fresh client would be [1]) and reports ["postgres"]. *)
Lemma runMetricQuery_warehouseType_witness :
  let w1 := fst (runMetricQuery sample_env_plain "o1" "p1" "u1" init_world) in
  w_clients w1 !! "p1" = Some (mkClient 0 sample_plain_credentials) /\
  w_next_client w1 = 1%nat /\
  snd (getWarehouseClient sample_env_plain "p1" w1) =
    Fulfilled (mkClient 0 sample_plain_credentials, sample_plain_credentials) /\
  exists c, snd (getWarehouseCredentialsForProject sample_env_plain "p1" w1) =
              Fulfilled c /\ "postgres" = cred_type c.
Proof.
  intros w1.
  split; [vm_compute; reflexivity|]. split; [vm_compute; reflexivity|].
  split; [vm_compute; reflexivity|].
  apply (runMetricQuery_warehouseType sample_env_plain "o1" "p1" "u1" w1
           (mkMetricQueryResult sample_rows (mkCacheMetadata false None)
              "SELECT 1" false "postgres")).
  vm_compute. reflexivity.
Defined.

(** X6: [compileMetricQuery] makes at most one call, the tunnel connect: it
    never disconnects the tunnel it opens, never reads or writes the result
    cache and never runs a query; on success the tunnel is connected and the
    answer is [buildQuery]'s for the member's attribute values. *)
Theorem compileMetricQuery_calls E o p u w w' r :
  compileMetricQuery E o p u w = (w', r) ->
  w_pending w' = w_pending w /\
  match r with
  | Fulfilled qb =>
      w_trace w' = w_trace w ++ [EvTunnelConnect] /\
      exists m, snd (getAttributeValuesForOrgMember E o u w) = Fulfilled m /\
                build_query E m = Fulfilled qb
  | Rejected _ => w_trace w' = w_trace w \/ w_trace w' = w_trace w ++ [EvTunnelConnect]
  end.
Proof.
  unfold compileMetricQuery. intros H.
  apply bind_cases in H as [(e&Hg&->)|([cl c]&w1&Hg&H)].
  { apply getWarehouseClient_rejected_inv in Hg
      as (Hp&_&_&[(->&_)|[(->&_)|(c&eff&_&_&_&Htr)]]); auto. }
  apply getWarehouseClient_fulfilled_inv in Hg as (_&Htr&Hp&_).
  pose proof (getAttributeValuesForOrgMember_world E o u w1) as Hw2.
  apply bind_cases in H as [(e&Ha&->)|(ua&w2&Ha&H)].
  { rewrite Ha in Hw2. simpl in Hw2. subst w'. auto. }
  rewrite Ha in Hw2. simpl in Hw2. subst w2.
  unfold await, ret, throw in H.
  destruct (build_query E ua) as [qb|e] eqn:Hb; injection H as <- <-;
    (split; [done|]); [|by right].
  split; [done|]. exists ua. split; [|done].
  unfold getAttributeValuesForOrgMember, bind, await, ret, throw in Ha |- *.
  destruct (db_org_attributes E o); [|discriminate].
  destruct (db_user_values E o u); simpl in *; congruence.
Qed.

(** Witness: compiling for [p1] leaves its tunnel connected. *)
Lemma compileMetricQuery_calls_witness :
  let cl := mkClient 0 (mkCredentials "postgres" "127.0.0.1" 40000 "analyst"
                          "secret" true) in
  let w' := mkWorld [EvTunnelConnect] [] (<["p1" := cl]> ∅) 1 40001 in
  w_pending w' = w_pending init_world /\
  w_trace w' = w_trace init_world ++ [EvTunnelConnect] /\
  exists m, snd (getAttributeValuesForOrgMember sample_env_ok "o1" "u1" init_world) =
              Fulfilled m /\
            build_query sample_env_ok m = Fulfilled ("SELECT 1", false).
Proof.
  intros cl w'.
  apply (compileMetricQuery_calls sample_env_ok "o1" "p1" "u1" init_world w'
           (Fulfilled ("SELECT 1", false))).
  vm_compute. reflexivity.
Defined.

(** X7: [compileMetricQuery] builds the query [runMetricQuery] runs and
    reports: whenever [runMetricQuery] succeeds, [compileMetricQuery] from
    the same state succeeds with its [query] and [hasExampleMetric]. *)
Theorem compileMetricQuery_runMetricQuery E o p u w r :
  snd (runMetricQuery E o p u w) = Fulfilled r ->
  snd (compileMetricQuery E o p u w) = Fulfilled (res_query r, res_hasExampleMetric r).
Proof.
  unfold runMetricQuery, compileMetricQuery. intros H.
  apply bind_fulfilled in H as (ct&w1&Hg&H).
  apply bind_fulfilled in H as (ua&w2&Ha&H).
  apply bind_fulfilled in H as (qb&w3&Hb&H).
  apply bind_fulfilled in H as (rc&w4&_&H).
  apply bind_fulfilled in H as (u'&w5&_&H).
  simpl in H. injection H as <-. simpl.
  unfold bind at 1. rewrite Hg. unfold bind at 1. rewrite Ha.
  rewrite Hb. by destruct qb.
Qed.

(** Witness: the sample query of [p1]. *)
Lemma compileMetricQuery_runMetricQuery_witness :
  snd (compileMetricQuery sample_env_ok "o1" "p1" "u1" init_world) =
  Fulfilled ("SELECT 1", false).
Proof.
  apply (compileMetricQuery_runMetricQuery sample_env_ok "o1" "p1" "u1" init_world
           (mkMetricQueryResult sample_rows (mkCacheMetadata false None)
              "SELECT 1" false "postgres")).
  vm_compute. reflexivity.
Defined.

(** What a cache lookup answered, and from which reads. *)
Lemma lookupCache_answers_inv E key w w' r :
  lookupCache E key w = (w', r) ->
  match r with
  | Fulfilled (Some (rows, md)) =>
      cache_enabled E = true /\
      exists lm str,
        s3_get_results_metadata E key = Fulfilled (Some lm) /\ is_fresh E lm = true /\
        s3_get_results E key = Fulfilled (Some str) /\ str <> "" /\
        parse_rows E str = Some rows /\ md = mkCacheMetadata true (Some lm) /\
        w' = w_after w [EvCacheMetadataRead key; EvCacheResultsRead key] []
  | Fulfilled None => True
  | Rejected e =>
      cache_enabled E = true /\
      exists lm, s3_get_results_metadata E key = Fulfilled (Some lm) /\
                 is_fresh E lm = true /\ s3_get_results E key = Rejected e
  end.
Proof.
  unfold lookupCache.
  destruct (cache_enabled E); [|unfold ret; intros H; injection H as <- <-; done].
  unfold bind, emit, await, catch_undefined, ret, throw. simpl.
  destruct (s3_get_results_metadata E key) as [[lm|]|e']; simpl;
    try (intros H; injection H as <- <-; done).
  destruct (is_fresh E lm) eqn:Hf; simpl; [|intros H; injection H as <- <-; done].
  destruct (s3_get_results E key) as [[str|]|e'] eqn:Hs; simpl.
  - case_bool_decide as Hemp; [intros H; injection H as <- <-; done|].
    destruct (parse_rows E str) as [rows|] eqn:Hp;
      intros H; injection H as <- <-; [|done].
    split; [done|]. exists lm, str. unfold w_after. simpl.
    rewrite <- app_assoc, app_nil_r. auto 10.
  - intros H. injection H as <- <-. done.
  - intros H. injection H as <- <-. split; [done|]. eauto.
Qed.

(** X8: a cache lookup answers with cached rows only for an enabled cache,
    a fresh metadata entry and a non-empty payload that parses; the rows are
    the parsed payload, the metadata is [cacheHit: true] with the entry's
    [LastModified], and exactly the metadata and payload reads were made.
    The lookup fails only with the error of the payload read of a fresh
    entry. *)
Theorem lookupCache_answers E key w w' r :
  lookupCache E key w = (w', r) ->
  match r with
  | Fulfilled (Some (rows, md)) =>
      cache_enabled E = true /\
      exists lm str,
        s3_get_results_metadata E key = Fulfilled (Some lm) /\ is_fresh E lm = true /\
        s3_get_results E key = Fulfilled (Some str) /\ str <> "" /\
        parse_rows E str = Some rows /\ md = mkCacheMetadata true (Some lm) /\
        w' = w_after w [EvCacheMetadataRead key; EvCacheResultsRead key] []
  | Fulfilled None => True
  | Rejected e =>
      cache_enabled E = true /\
      exists lm, s3_get_results_metadata E key = Fulfilled (Some lm) /\
                 is_fresh E lm = true /\ s3_get_results E key = Rejected e
  end.
Proof. apply lookupCache_answers_inv. Qed.

(** Witness: a fresh entry with a parsable payload. *)
Lemma lookupCache_answers_witness :
  let E := sample_env true (Fulfilled (Some 9000000)) (Fulfilled (Some "cached"))
             (Fulfilled sample_rows) (Fulfilled tt) [] in
  cache_enabled E = true /\
  exists lm str,
    s3_get_results_metadata E "p1.SELECT 1" = Fulfilled (Some lm) /\
    is_fresh E lm = true /\
    s3_get_results E "p1.SELECT 1" = Fulfilled (Some str) /\ str <> "" /\
    parse_rows E str = Some sample_rows /\
    mkCacheMetadata true (Some 9000000) = mkCacheMetadata true (Some lm) /\
    w_after init_world [EvCacheMetadataRead "p1.SELECT 1";
                        EvCacheResultsRead "p1.SELECT 1"] [] =
    w_after init_world [EvCacheMetadataRead "p1.SELECT 1";
                        EvCacheResultsRead "p1.SELECT 1"] [].
Proof.
  intros E.
  apply (lookupCache_answers E "p1.SELECT 1" init_world
           (w_after init_world [EvCacheMetadataRead "p1.SELECT 1";
                                EvCacheResultsRead "p1.SELECT 1"] [])
           (Fulfilled (Some (sample_rows, mkCacheMetadata true (Some 9000000))))).
  vm_compute. reflexivity.
Defined.

(** X9: with caching enabled, a cache entry that cannot be used (no
    metadata, a failed metadata read, or a fresh entry whose payload is
    missing, empty or does not parse) is a miss: [getResultsFromCacheOrWarehouse]
    answers with what the warehouse answers for the query, marked
    [cacheHit: false]. *)
Theorem unusable_cache_entry_falls_through E p c q w :
  let key := queryHash E p q in
  cache_enabled E = true ->
  (s3_get_results_metadata E key = Fulfilled None \/
   (exists e, s3_get_results_metadata E key = Rejected e) \/
   (exists lm, s3_get_results_metadata E key = Fulfilled (Some lm) /\
      is_fresh E lm = true /\
      (s3_get_results E key = Fulfilled None \/
       s3_get_results E key = Fulfilled (Some "") \/
       exists str, s3_get_results E key = Fulfilled (Some str) /\ parse_rows E str = None))) ->
  snd (getResultsFromCacheOrWarehouse E p c q w) =
  match warehouse_run_query E c q with
  | Fulfilled rows => Fulfilled (rows, mkCacheMetadata false None)
  | Rejected e => Rejected e
  end.
Proof.
  intros key Hen Hcases.
  assert (Hmiss : exists w1, lookupCache E key w = (w1, Fulfilled None)).
  { unfold lookupCache. rewrite Hen.
    unfold bind, emit, await, catch_undefined, ret, throw. simpl.
    destruct Hcases as [Hmd|[(e&Hmd)|(lm&Hmd&Hf&Hs)]]; rewrite Hmd; simpl; eauto.
    rewrite Hf. simpl.
    destruct Hs as [Hs|[Hs|(str&Hs&Hp)]]; rewrite Hs; simpl; eauto.
    case_bool_decide; [eauto|]. rewrite Hp. eauto. }
  destruct Hmiss as (w1&Hl).
  rewrite (getResultsFromCacheOrWarehouse_miss E p c q w w1 Hl).
  destruct (warehouse_run_query E c q); reflexivity.
Qed.

(** Witness: a fresh entry whose payload is the empty string. *)
Lemma unusable_cache_entry_falls_through_witness :
  let E := sample_env true (Fulfilled (Some 9000000)) (Fulfilled (Some ""))
             (Fulfilled sample_rows) (Fulfilled tt) [] in
  snd (getResultsFromCacheOrWarehouse E "p1" (mkClient 0 sample_ssh_credentials)
         "SELECT 1" init_world) =
  match warehouse_run_query E (mkClient 0 sample_ssh_credentials) "SELECT 1" with
  | Fulfilled rows => Fulfilled (rows, mkCacheMetadata false None)
  | Rejected e => Rejected e
  end.
Proof.
  intros E.
  refine (unusable_cache_entry_falls_through E "p1" (mkClient 0 sample_ssh_credentials)
            "SELECT 1" init_world _ _); [reflexivity|].
  right. right. exists 9000000. split; [reflexivity|]. split; [reflexivity|].
  right. left. reflexivity.
Defined.

Lemma lookupCache_reads E key :
  preserves (trace_step (fun e => e = EvCacheMetadataRead key \/
                                  e = EvCacheResultsRead key)) (lookupCache E key).
Proof.
  unfold lookupCache.
  preserves_by ltac:(apply emit_trace; first [left; reflexivity | right; reflexivity]).
Qed.

(** The steps of a successful [runMetricQuery]. *)
Lemma runMetricQuery_fulfilled_inv E o p u w w' r :
  runMetricQuery E o p u w = (w', Fulfilled r) ->
  exists cl c w1 rc w4,
    getWarehouseClient E p w = (w1, Fulfilled (cl, c)) /\
    w_trace w1 = w_trace w ++ [EvTunnelConnect] /\ w_pending w1 = w_pending w /\
    w_clients w1 !! p = Some cl /\
    getResultsFromCacheOrWarehouse E p cl (res_query r) w1 = (w4, Fulfilled rc) /\
    rc = (res_rows r, res_cacheMetadata r) /\
    w' = w_after w4 [EvTunnelDisconnect] [].
Proof.
  unfold runMetricQuery. intros H.
  apply bind_cases in H as [(e&Hg&He)|([cl c]&w1&Hg&H)]; [discriminate|].
  pose proof Hg as Hg0.
  apply getWarehouseClient_fulfilled_inv in Hg as (_&Htr&Hp&Hcl&_).
  cbn [fst] in H.
  pose proof (getAttributeValuesForOrgMember_world E o u w1) as Hw2.
  apply bind_cases in H as [(e&Ha&He)|(ua&w2&Ha&H)]; [discriminate|].
  rewrite Ha in Hw2. simpl in Hw2. subst w2.
  apply bind_cases in H as [(e&Hb&He)|(qb&w3&Hb&H)]; [discriminate|].
  assert (w3 = w1) as ->.
  { unfold await, ret, throw in Hb. destruct (build_query E ua); congruence. }
  apply bind_cases in H as [(e&Hr&He)|(rc&w4&Hr&H)]; [discriminate|].
  unfold bind, sshTunnelDisconnect, emit, ret in H. injection H as <- <-.
  exists cl, c, w1, rc, w4. simpl.
  split; [done|]. split; [done|]. split; [done|]. split; [by rewrite Hcl, lookup_insert_eq|].
  split; [done|]. split; [by destruct rc|].
  unfold w_after. by rewrite app_nil_r.
Qed.

(** X10: an answer of [runMetricQuery] marked [cacheHit: true] is the parsed
    payload of a fresh cache entry stored under the hash of the project and
    the reported query, with that entry's [LastModified] as
    [cacheUpdatedTime]; the call then ran no warehouse query and wrote
    nothing to the cache: its only calls were tunnel connect, the metadata
    and payload reads, and tunnel disconnect. *)
Theorem cache_hit_skips_warehouse E o p u w w' r :
  runMetricQuery E o p u w = (w', Fulfilled r) ->
  cacheHit (res_cacheMetadata r) = true ->
  (exists lm str,
     s3_get_results_metadata E (queryHash E p (res_query r)) = Fulfilled (Some lm) /\
     is_fresh E lm = true /\
     s3_get_results E (queryHash E p (res_query r)) = Fulfilled (Some str) /\
     parse_rows E str = Some (res_rows r) /\
     cacheUpdatedTime (res_cacheMetadata r) = Some lm) /\
  w_trace w' = w_trace w ++ [EvTunnelConnect;
                             EvCacheMetadataRead (queryHash E p (res_query r));
                             EvCacheResultsRead (queryHash E p (res_query r));
                             EvTunnelDisconnect] /\
  w_pending w' = w_pending w.
Proof.
  intros H Hhit.
  apply runMetricQuery_fulfilled_inv in H as (cl&c&w1&rc&w4&_&Htr&Hp&_&Hr&->&->).
  destruct (lookupCache E (queryHash E p (res_query r)) w1) as [w5 [[hit|]|e]] eqn:Hl.
  - unfold getResultsFromCacheOrWarehouse in Hr. cbv zeta in Hr.
    unfold bind at 1 in Hr. rewrite Hl in Hr. unfold ret in Hr.
    injection Hr as <- ->.
    apply lookupCache_answers_inv in Hl.
    destruct Hl as (_&lm&str&Hmd&Hf&Hs&_&Hpr&Hmeta&->).
    split. { exists lm, str. rewrite Hmeta. auto 6. }
    unfold w_after. simpl. rewrite Htr, Hp, !app_nil_r, <- !app_assoc. auto.
  - rewrite (getResultsFromCacheOrWarehouse_miss E p cl _ w1 w5 Hl) in Hr.
    destruct (warehouse_run_query E cl (res_query r)); [|discriminate].
    injection Hr as _ _ Hmd. rewrite <- Hmd in Hhit. discriminate.
  - unfold getResultsFromCacheOrWarehouse in Hr. cbv zeta in Hr.
    unfold bind at 1 in Hr. rewrite Hl in Hr. discriminate.
Qed.

(** Witness: a fresh entry is served while the warehouse is down. *)
Lemma cache_hit_skips_warehouse_witness :
  let E := sample_env true (Fulfilled (Some 9000000)) (Fulfilled (Some "cached"))
             (Rejected WarehouseQueryError) (Fulfilled tt) [] in
  let r := mkMetricQueryResult sample_rows (mkCacheMetadata true (Some 9000000))
             "SELECT 1" false "postgres" in
  let cl := mkClient 0 (mkCredentials "postgres" "127.0.0.1" 40000 "analyst"
                          "secret" true) in
  let w' := mkWorld [EvTunnelConnect; EvCacheMetadataRead "p1.SELECT 1";
                     EvCacheResultsRead "p1.SELECT 1"; EvTunnelDisconnect] []
                    (<["p1" := cl]> ∅) 1 40001 in
  (exists lm str,
     s3_get_results_metadata E (queryHash E "p1" (res_query r)) = Fulfilled (Some lm) /\
     is_fresh E lm = true /\
     s3_get_results E (queryHash E "p1" (res_query r)) = Fulfilled (Some str) /\
     parse_rows E str = Some (res_rows r) /\
     cacheUpdatedTime (res_cacheMetadata r) = Some lm) /\
  w_trace w' = w_trace init_world ++
               [EvTunnelConnect; EvCacheMetadataRead (queryHash E "p1" (res_query r));
                EvCacheResultsRead (queryHash E "p1" (res_query r)); EvTunnelDisconnect] /\
  w_pending w' = w_pending init_world.
Proof.
  intros E r cl w'.
  apply (cache_hit_skips_warehouse E "o1" "p1" "u1" init_world w' r);
    vm_compute; reflexivity.
Defined.

(** X11: an answer of [runMetricQuery] marked [cacheHit: false] carries no
    [cacheUpdatedTime] and was computed in this call, for the reported
    query, by the warehouse client that the call's own [getWarehouseClient]
    resolved at its start; the calls
    were tunnel connect, reads of the cache entry of the hash of the
    project and the query, one warehouse run of the query, the cache
    write under that hash when caching is enabled, and tunnel
    disconnect. *)
Theorem cache_miss_answers_from_warehouse E o p u w w' r :
  runMetricQuery E o p u w = (w', Fulfilled r) ->
  cacheHit (res_cacheMetadata r) = false ->
  res_cacheMetadata r = mkCacheMetadata false None /\
  (exists cl c w1, getWarehouseClient E p w = (w1, Fulfilled (cl, c)) /\
              warehouse_run_query E cl (res_query r) = Fulfilled (res_rows r)) /\
  exists tr,
    Forall (fun e => e = EvCacheMetadataRead (queryHash E p (res_query r)) \/
                     e = EvCacheResultsRead (queryHash E p (res_query r))) tr /\
    w_trace w' = w_trace w ++ [EvTunnelConnect] ++ tr ++
                 [EvWarehouseRun (res_query r)] ++
                 (if cache_enabled E then [EvCacheUpload (queryHash E p (res_query r))]
                  else []) ++ [EvTunnelDisconnect].
Proof.
  intros H Hmiss.
  apply runMetricQuery_fulfilled_inv in H as (cl&c&w1&rc&w4&Hg&Htr&Hp&_&Hr&->&->).
  destruct (lookupCache E (queryHash E p (res_query r)) w1) as [w5 [[hit|]|e]] eqn:Hl.
  - exfalso. unfold getResultsFromCacheOrWarehouse in Hr. cbv zeta in Hr.
    unfold bind at 1 in Hr. rewrite Hl in Hr. unfold ret in Hr.
    injection Hr as <- ->.
    apply lookupCache_answers_inv in Hl.
    destruct Hl as (_&lm&str&_&_&_&_&_&Hmeta&_).
    rewrite Hmeta in Hmiss. discriminate.
  - pose proof (lookupCache_reads E (queryHash E p (res_query r)) w1) as (tr&Htr5&Hok).
    rewrite Hl in Htr5. simpl in Htr5.
    rewrite (getResultsFromCacheOrWarehouse_miss E p cl _ w1 w5 Hl) in Hr.
    destruct (warehouse_run_query E cl (res_query r)) as [rows|e] eqn:Hw;
      [|discriminate].
    injection Hr as <- Hrows Hmd. rewrite Hrows in Hw.
    split; [done|]. split.
    { exists cl, c, w1. by split. }
    exists tr. split; [done|].
    destruct (cache_enabled E); simpl; rewrite Htr5, Htr, <- !app_assoc; reflexivity.
  - unfold getResultsFromCacheOrWarehouse in Hr. cbv zeta in Hr.
    unfold bind at 1 in Hr. rewrite Hl in Hr. discriminate.
Qed.

(** Witness: nothing cached; the warehouse answers and the result is
    written back. *)
Lemma cache_miss_answers_from_warehouse_witness :
  let E := sample_env_ok in
  let r := mkMetricQueryResult sample_rows (mkCacheMetadata false None)
             "SELECT 1" false "postgres" in
  let cl := mkClient 0 (mkCredentials "postgres" "127.0.0.1" 40000 "analyst"
                          "secret" true) in
  let w' := mkWorld [EvTunnelConnect; EvCacheMetadataRead "p1.SELECT 1";
                     EvWarehouseRun "SELECT 1"; EvCacheUpload "p1.SELECT 1";
                     EvTunnelDisconnect] [Fulfilled tt]
                    (<["p1" := cl]> ∅) 1 40001 in
  res_cacheMetadata r = mkCacheMetadata false None /\
  (exists cl c w1, getWarehouseClient E "p1" init_world = (w1, Fulfilled (cl, c)) /\
              warehouse_run_query E cl (res_query r) = Fulfilled (res_rows r)) /\
  exists tr,
    Forall (fun e => e = EvCacheMetadataRead (queryHash E "p1" (res_query r)) \/
                     e = EvCacheResultsRead (queryHash E "p1" (res_query r))) tr /\
    w_trace w' = w_trace init_world ++ [EvTunnelConnect] ++ tr ++
                 [EvWarehouseRun (res_query r)] ++
                 (if cache_enabled E then [EvCacheUpload (queryHash E "p1" (res_query r))]
                  else []) ++ [EvTunnelDisconnect].
Proof.
  intros E r cl w'.
  apply (cache_miss_answers_from_warehouse E "o1" "p1" "u1" init_world w' r);
    vm_compute; reflexivity.
Defined.

End WarehouseModelFacts.
